(** * sql-agent: a shallow embedding of [agent.py] and [app.py]

    The two scripts drive one pipeline: a question is turned into SQL by a
    language model, the SQL is run by a database tool, and the result is
    summarised by the model.  The model, the database tool and the operator
    are outside the repository; they appear here as oracles that answer from
    the history of the run so far.

    Text is a list of characters.  A character is a code point of the
    Latin-1 block (0 to 255), with Python's whitespace and case tables on
    that block.  Dictionaries with string keys ([State], node updates) are
    finite maps.  An exception is an instance of Python's [Exception], the
    class every handler of the two scripts names; [str(e)] is its message. *)

From Stdlib Require Import String Ascii NArith List Bool Lia.
From stdpp Require Import base list gmap strings.
Import ListNotations.
Open Scope list_scope.

(** ** Text *)

Definition str := list ascii.

(** A string literal of the source. *)
Definition lit (s : string) : str := list_ascii_of_string s.

(** The newline character of [\n] in a literal. *)
Definition nl : str := [ascii_of_N 10].

(** [s.startswith(p)], the test [split], [in] and [re] make at one position. *)
Fixpoint startswith (p s : str) : bool :=
  match p, s with
  | [], _ => true
  | _ :: _, [] => false
  | a :: p', b :: s' => Ascii.eqb a b && startswith p' s'
  end.

(** [sep in s]: some suffix of [s] starts with [sep]. *)
Fixpoint str_in (sep s : str) : bool :=
  startswith sep s ||
  match s with
  | [] => false
  | _ :: s' => str_in sep s'
  end.

(** The scan of [s.split(sep)]: left to right, [cur] holds the piece being
    read (reversed); at an occurrence of [sep] the piece is closed and the
    scan jumps over the separator ([skip] counts what is left of the jump),
    so occurrences never overlap.  *)
Fixpoint split_go (sep : str) (skip : nat) (cur : str) (s : str) : list str :=
  match s with
  | [] => [rev cur]
  | c :: s' =>
      match skip with
      | S k => split_go sep k cur s'
      | O =>
          if startswith sep s
          then rev cur :: split_go sep (length sep - 1) [] s'
          else split_go sep 0 (c :: cur) s'
      end
  end.

(** [s.split(sep)] for a separator that is not empty (on an empty one Python
    raises [ValueError]; the scripts pass two literals). *)
Definition str_split (sep s : str) : list str := split_go sep 0 [] s.

(** [parts[-1]] and [parts[0]] on the list [split] returns, which is never
    empty. *)
Definition item_last (parts : list str) : str := List.last parts [].
Definition item_first (parts : list str) : str := List.hd [] parts.

(** [c.isspace()] below code point 256: tab to carriage return, the four
    separators 28 to 31, space, next-line and no-break space. *)
Definition isspace (c : ascii) : bool :=
  let n := N_of_ascii c in
  ((9 <=? n) && (n <=? 13) || (28 <=? n) && (n <=? 32)
   || (n =? 133) || (n =? 160))%N.

Fixpoint lstrip (s : str) : str :=
  match s with
  | [] => []
  | c :: s' => if isspace c then lstrip s' else s
  end.

Definition rstrip (s : str) : str := rev (lstrip (rev s)).

(** [s.strip()] *)
Definition strip (s : str) : str := rstrip (lstrip s).

(** [c.lower()] below code point 256: the capitals A to Z and the accented
    capitals 192 to 222 (the multiplication sign 215 apart) move up by 32. *)
Definition lower_char (c : ascii) : ascii :=
  let n := N_of_ascii c in
  if ((65 <=? n) && (n <=? 90)
      || (192 <=? n) && (n <=? 222) && negb (n =? 215))%N
  then ascii_of_N (n + 32)
  else c.

(** [s.lower()] *)
Definition str_lower (s : str) : str := map lower_char s.

(** Truth value of a string, and of a value that may be [None]. *)
Definition truthy (s : str) : bool :=
  match s with
  | [] => false
  | _ :: _ => true
  end.

Definition truthy_opt (o : option str) : bool :=
  match o with
  | Some s => truthy s
  | None => false
  end.

(** ** A small matcher for the pattern of [re.sub]

    A matcher answers, at the head of the text, the length of the match. *)
Definition matcher := str -> option nat.

Definition re_lit (p : str) : matcher :=
  fun s => if startswith p s then Some (length p) else None.

Definition re_char (c : ascii) (k : matcher) : matcher :=
  fun s =>
    match s with
    | a :: s' => if Ascii.eqb a c then option_map S (k s') else None
    | [] => None
    end.

(** [c?]: greedy, and the match without [c] is tried when the rest fails. *)
Definition re_opt_char (c : ascii) (k : matcher) : matcher :=
  fun s =>
    match re_char c k s with
    | Some n => Some n
    | None => k s
    end.

(** The scan of [re.sub(pattern, '', s)] for a pattern that matches no empty
    text: a match is dropped and the scan goes on behind it. *)
Fixpoint sub_go (m : matcher) (skip : nat) (s : str) : str :=
  match s with
  | [] => []
  | c :: s' =>
      match skip with
      | S k => sub_go m k s'
      | O =>
          match m s with
          | Some n => sub_go m (n - 1) s'
          | None => c :: sub_go m 0 s'
          end
      end
  end.

Definition re_sub_empty (m : matcher) (s : str) : str := sub_go m 0 s.

(** ** Outcomes, events and the run monad *)

Record exn := PyException { exn_message : str }.

Inductive outcome (A : Type) : Type :=
| Returns (a : A)
| Raises (e : exn).
Arguments Returns {A} a.
Arguments Raises {A} e.

(** A Python dictionary with string keys and text values: the pipeline
    state, a node's update, a structured model output. *)
Abbreviation Dict := (gmap string str).
Abbreviation State := (gmap string str).
Abbreviation Update := (gmap string str).

(** What [query_prompt_template.invoke] is given; the template itself is
    pulled from a hub at start-up. *)
Record PromptValue := mkPrompt {
  pv_dialect : str;
  pv_top_k : nat;
  pv_table_info : str;
  pv_input : str
}.

Inductive Widget := StSubheader | StCode | StWrite | StMarkdown | StError.

(** Everything a run does to the outside, in order. *)
Inductive Event :=
| EvTableInfo                          (* db.get_table_info() *)
| EvStructured (p : PromptValue)       (* structured_llm.invoke(prompt) *)
| EvChat (p : PromptValue)             (* llm.invoke(prompt), a prompt value *)
| EvText (p : str)                     (* llm.invoke(prompt), a plain string *)
| EvTool (q : str)                     (* execute_query_tool.invoke(query) *)
| EvPrint (line : str)                 (* print(text) *)
| EvPrintStep (node : string) (u : Update)  (* print of a streamed step *)
| EvInput (prompt : str)               (* input(prompt) *)
| EvRender (w : Widget) (text : str).  (* st.subheader, st.code, ... *)

(** The collaborators.  Each answers from the events so far, so two calls
    with the same argument may differ. *)
Record Env := mkEnv {
  db_dialect : str;
  db_table_info : list Event -> outcome str;
  structured_llm : list Event -> PromptValue -> outcome (option Dict);
  llm_chat : list Event -> PromptValue -> outcome str;
  llm_text : list Event -> str -> outcome str;
  sql_tool : list Event -> str -> outcome str;
  operator : list Event -> str
}.

(** A checkpoint of one thread: the accumulated state the next node will
    receive, the node that runs next, and under [values] the latest update of
    each node that ran, keyed by node name (the layout [human_in_the_loop]
    reads). *)
Record Checkpoint := mkCheckpoint {
  channels : State;
  next_node : option string;
  values : gmap string Update
}.

Record World := mkWorld {
  log : list Event;
  memory : gmap string Checkpoint
}.

Definition M (A : Type) : Type := World -> outcome A * World.

Definition ret {A} (a : A) : M A := fun w => (Returns a, w).

Definition raise {A} (e : exn) : M A := fun w => (Raises e, w).

Definition bind {A B} (m : M A) (k : A -> M B) : M B :=
  fun w =>
    match m w with
    | (Returns a, w') => k a w'
    | (Raises e, w') => (Raises e, w')
    end.

(** [try: m except Exception as e: h e] *)
Definition try_except {A} (m : M A) (h : exn -> M A) : M A :=
  fun w =>
    match m w with
    | (Returns a, w') => (Returns a, w')
    | (Raises e, w') => h e w'
    end.

Notation "'let*' x := m 'in' k" := (bind m (fun x => k))
  (at level 10, x name, m at level 100, k at level 200, only parsing).
Notation "m ;; k" := (bind m (fun _ => k))
  (at level 100, k at level 200, right associativity, only parsing).

Definition emit (e : Event) : M unit :=
  fun w => (Returns tt, mkWorld (log w ++ [e]) (memory w)).

(** A call to a collaborator: it answers from the log, and the call is
    logged. *)
Definition call {A} (e : Event) (answer : list Event -> outcome A) : M A :=
  fun w => (answer (log w), mkWorld (log w ++ [e]) (memory w)).

Definition get_table_info (env : Env) : M str :=
  call EvTableInfo (db_table_info env).

Definition invoke_structured (env : Env) (p : PromptValue) : M (option Dict) :=
  call (EvStructured p) (fun h => structured_llm env h p).

Definition invoke_chat (env : Env) (p : PromptValue) : M str :=
  call (EvChat p) (fun h => llm_chat env h p).

Definition invoke_text (env : Env) (p : str) : M str :=
  call (EvText p) (fun h => llm_text env h p).

Definition invoke_tool (env : Env) (q : str) : M str :=
  call (EvTool q) (fun h => sql_tool env h q).

Definition input (env : Env) (prompt : str) : M str :=
  fun w => (Returns (operator env (log w)),
            mkWorld (log w ++ [EvInput prompt]) (memory w)).

Definition print (line : str) : M unit := emit (EvPrint line).

(** [d[key]] on a dictionary: [KeyError] when the key is absent. *)
Definition getitem (key : string) (d : Dict) : M str :=
  match d !! key with
  | Some v => ret v
  | None => raise (PyException (lit "'" ++ lit key ++ lit "'"))
  end.

(** [d[key]] on a value that may be [None]: [TypeError] on [None]. *)
Definition getitem_opt (key : string) (d : option Dict) : M str :=
  match d with
  | Some d' => getitem key d'
  | None => raise (PyException (lit "'NoneType' object is not subscriptable"))
  end.

(** ** The text both scripts cut out of a free-text model response *)

Definition fence : str := lit "```sql".
Definition ticks : str := lit "```".

(** [content.split("```sql")[-1].split("```")[0].strip()] when the marker is
    in the text, [content.strip()] otherwise. *)
Definition clean_query (content : str) : str :=
  if str_in fence content
  then strip (item_first (str_split ticks (item_last (str_split fence content))))
  else strip content.

(** Text equality, as [==] on two strings. *)
Fixpoint str_eqb (a b : str) : bool :=
  match a, b with
  | [], [] => true
  | x :: a', y :: b' => Ascii.eqb x y && str_eqb a' b'
  | _, _ => false
  end.

(** ** agent.py *)

Module Agent.

(** [write_query]: the prompt is built before the [try]; the dictionary
    literal reads the schema text first and [state["question"]] last. *)
Definition write_query (env : Env) (state : State) : M Update :=
  let* info := get_table_info env in
  let* question := getitem "question" state in
  let prompt := mkPrompt (db_dialect env) 10 info question in
  try_except
    (let* result := invoke_structured env prompt in
     let* q := getitem_opt "query" result in
     ret {["query" := q]})
    (fun e =>
       print (lit "Structured output failed, falling back to text parsing: "
              ++ exn_message e) ;;
       let* content := invoke_chat env prompt in
       ret {["query" := clean_query content]}).

Definition execute_query (env : Env) (state : State) : M Update :=
  try_except
    (let* q := getitem "query" state in
     let* r := invoke_tool env q in
     ret {["result" := r]})
    (fun e => ret {["result" := lit "Error executing query: " ++ exn_message e]}).

Definition answer_prompt (question query result : str) : str :=
  lit "Given the following user question, corresponding SQL query, "
  ++ lit "and SQL result, answer the user question." ++ nl ++ nl
  ++ lit "Question: " ++ question ++ nl
  ++ lit "SQL Query: " ++ query ++ nl
  ++ lit "SQL Result: " ++ result.

Definition generate_answer (env : Env) (state : State) : M Update :=
  let* question := getitem "question" state in
  let* query := getitem "query" state in
  let* result := getitem "result" state in
  let prompt := answer_prompt question query result in
  try_except
    (let* content := invoke_text env prompt in
     ret {["answer" := content]})
    (fun e => ret {["answer" := lit "Error generating answer: " ++ exn_message e]}).

(** *** The graph

    [StateGraph(State)] with its nodes, entry point and edges, and what
    [compile] adds.  The run-time is the workflow library's: a node receives
    the accumulated state, its update is merged over it key by key, the
    thread's checkpoint is stored after every step, and a node named in
    [interrupt_before] stops the run before it starts, unless the run has
    just been resumed there. *)
Record StateGraph := mkStateGraph {
  nodes : list (string * (State -> M Update));
  entry_point : option string;
  edges : list (string * string)
}.

Record CompiledGraph := mkCompiled {
  builder : StateGraph;
  checkpointer : bool;
  interrupt_before : list string
}.

Definition graph_builder (env : Env) : StateGraph :=
  {| nodes := [("write_query"%string, write_query env);
               ("execute_query"%string, execute_query env);
               ("generate_answer"%string, generate_answer env)];
     entry_point := Some "write_query"%string;
     edges := [("write_query"%string, "execute_query"%string);
               ("execute_query"%string, "generate_answer"%string)] |}.

(** [graph_builder.compile()] *)
Definition plain_graph (env : Env) : CompiledGraph :=
  {| builder := graph_builder env; checkpointer := false; interrupt_before := [] |}.

(** [graph_builder.compile(checkpointer=memory, interrupt_before=["execute_query"])] *)
Definition graph (env : Env) : CompiledGraph :=
  {| builder := graph_builder env;
     checkpointer := true;
     interrupt_before := ["execute_query"%string] |}.

Fixpoint find_node (name : string) (ns : list (string * (State -> M Update)))
  : option (State -> M Update) :=
  match ns with
  | [] => None
  | (n, f) :: ns' => if String.eqb n name then Some f else find_node name ns'
  end.

Fixpoint successor (name : string) (es : list (string * string)) : option string :=
  match es with
  | [] => None
  | (a, b) :: es' => if String.eqb a name then Some b else successor name es'
  end.

Fixpoint name_in (name : string) (names : list string) : bool :=
  match names with
  | [] => false
  | n :: names' => String.eqb n name || name_in name names'
  end.

(** The library's default bound on the steps of one run. *)
Definition recursion_limit : nat := 25.

Definition save (g : CompiledGraph) (thread : option string) (cp : Checkpoint) : M unit :=
  fun w =>
    match checkpointer g, thread with
    | true, Some t => (Returns tt, mkWorld (log w) (<[t := cp]> (memory w)))
    | _, _ => (Returns tt, w)
    end.

(** [memory.get(config)] *)
Definition memory_get (thread : string) : M (option Checkpoint) :=
  fun w => (Returns (memory w !! thread), w).

Definition prior (g : CompiledGraph) (thread : option string) : M (option Checkpoint) :=
  match checkpointer g, thread with
  | true, Some t => memory_get t
  | _, _ => ret None
  end.

Fixpoint run_steps (fuel : nat) (g : CompiledGraph) (thread : option string)
    (resumed : bool) (cp : Checkpoint) (on_step : string -> Update -> M unit)
  : M unit :=
  match next_node cp with
  | None => ret tt
  | Some n =>
      if negb resumed && name_in n (interrupt_before g) then ret tt
      else
        match fuel with
        | O => raise (PyException (lit "Recursion limit reached"))
        | S fuel' =>
            match find_node n (nodes (builder g)) with
            | None => raise (PyException (lit "unknown node"))
            | Some node =>
                let* u := node (channels cp) in
                let cp' := mkCheckpoint (u ∪ channels cp)
                                        (successor n (edges (builder g)))
                                        (<[n := u]> (values cp)) in
                save g thread cp' ;;
                on_step n u ;;
                run_steps fuel' g thread false cp' on_step
            end
        end
  end.

(** [for step in graph.stream(input, config, stream_mode="updates"): on_step].
    With an input the run starts at the entry point, over what the thread
    already holds; with [None] it resumes the thread where it stopped. *)
Definition stream (g : CompiledGraph) (input : option State) (thread : option string)
    (on_step : string -> Update -> M unit) : M unit :=
  let* before := prior g thread in
  match input, before with
  | Some inp, Some cp =>
      let cp0 := mkCheckpoint (inp ∪ channels cp) (entry_point (builder g)) (values cp) in
      save g thread cp0 ;;
      run_steps recursion_limit g thread false cp0 on_step
  | Some inp, None =>
      let cp0 := mkCheckpoint inp (entry_point (builder g)) ∅ in
      save g thread cp0 ;;
      run_steps recursion_limit g thread false cp0 on_step
  | None, Some cp => run_steps recursion_limit g thread true cp on_step
  | None, None => raise (PyException (lit "no checkpoint to resume"))
  end.

Definition print_step (node : string) (u : Update) : M unit :=
  emit (EvPrintStep node u).

Definition run_query (env : Env) (question : str) : M unit :=
  print (nl ++ lit "Processing question: " ++ question) ;;
  stream (plain_graph env) (Some {["question"%string := question]}) None print_step.

Definition thread_id : string := "1".

(** [thread_state["values"][node][key]] *)
Definition node_value (node key : string) (thread_state : option Checkpoint) : M str :=
  match thread_state with
  | None => raise (PyException (lit "'NoneType' object is not subscriptable"))
  | Some cp =>
      match values cp !! node with
      | None => raise (PyException (lit "'" ++ lit node ++ lit "'"))
      | Some u => getitem key u
      end
  end.

Definition approval_prompt : str := lit "Do you want to execute this query? (yes/no): ".
Definition cancelled : str := lit "Execution cancelled by user.".

(** The handler for [KeyboardInterrupt] is left out: an interrupt from the
    keyboard is no [Exception], and no collaborator of this model raises
    one. *)
Definition human_in_the_loop (env : Env) (question : str) : M unit :=
  print (nl ++ lit "Processing with human approval: " ++ question) ;;
  try_except
    (stream (graph env) (Some {["question"%string := question]}) (Some thread_id) print_step ;;
     let* thread_state := memory_get thread_id in
     let* generated_query := node_value "write_query" "query" thread_state in
     print (nl ++ lit "Generated SQL Query:" ++ nl ++ generated_query) ;;
     let* answer := input env approval_prompt in
     let user_approval := str_lower answer in
     if str_eqb user_approval (lit "yes")
     then
       stream (graph env) None (Some thread_id) print_step ;;
       let* thread_state := memory_get thread_id in
       let* final := node_value "generate_answer" "answer" thread_state in
       print (nl ++ lit "Final Answer: " ++ final)
     else print cancelled)
    (fun e => print (lit "Error in processing: " ++ exn_message e)).

End Agent.

(** ** app.py *)

Module App.

Definition st_error (msg : str) : M unit := emit (EvRender StError msg).

Definition generate_sql (env : Env) (question : str) : M (option str) :=
  try_except
    (let* info := get_table_info env in
     let prompt := mkPrompt (db_dialect env) 10 info question in
     let* content := invoke_chat env prompt in
     ret (Some (clean_query content)))
    (fun e =>
       st_error (lit "SQL Generation Error: " ++ exn_message e) ;;
       ret None).

Definition execute_sql (env : Env) (query : str) : M (option str) :=
  try_except
    (let* r := invoke_tool env query in
     ret (Some r))
    (fun e =>
       st_error (lit "Execution Error: " ++ exn_message e) ;;
       ret None).

Definition indent : str := lit "        ".

Definition answer_prompt (question query result : str) : str :=
  nl
  ++ indent ++ lit "Explain the following database query results in natural language:" ++ nl
  ++ indent ++ nl
  ++ indent ++ lit "Question: " ++ question ++ nl
  ++ indent ++ lit "SQL Query: " ++ query ++ nl
  ++ indent ++ lit "Results: " ++ result ++ nl
  ++ indent ++ nl
  ++ indent ++ lit "Provide a concise answer using the results. Avoid technical terms." ++ nl
  ++ indent.

(** The pattern [<\/?think>]. *)
Definition think_tag : matcher :=
  re_char "<" (re_opt_char "/" (re_lit (lit "think>"))).

Definition generate_answer (env : Env) (question query result : str) : M (option str) :=
  try_except
    (let* content := invoke_text env (answer_prompt question query result) in
     let answer := re_sub_empty think_tag content in
     ret (Some (strip answer)))
    (fun e =>
       st_error (lit "Answer generation failed: " ++ exn_message e) ;;
       ret None).

(** [if value: body], for a value that is a string or [None]. *)
Definition if_truthy (value : option str) (body : str -> M unit) : M unit :=
  match value with
  | Some s => if truthy s then body s else ret tt
  | None => ret tt
  end.

Definition render (w : Widget) (text : str) : M unit := emit (EvRender w text).

(** The page below the question box; the spinners draw, and do nothing
    else. *)
Definition page (env : Env) (question : str) : M unit :=
  if truthy question then
    let* sql_query := generate_sql env question in
    if_truthy sql_query (fun sql_query =>
      render StSubheader (lit "Generated SQL Query") ;;
      render StCode sql_query ;;
      let* result := execute_sql env sql_query in
      if_truthy result (fun result =>
        render StSubheader (lit "Query Results") ;;
        render StWrite result ;;
        let* answer := generate_answer env question sql_query result in
        if_truthy answer (fun answer =>
          render StSubheader (lit "Natural Language Answer") ;;
          render StMarkdown (lit "**" ++ answer ++ lit "**"))))
  else ret tt.

End App.

(** ** Words used to state the properties *)

(** No occurrence of [sep] starts at one of the first [n] positions of [s]. *)
Fixpoint no_match_before (sep : str) (n : nat) (s : str) : bool :=
  match n with
  | O => true
  | S n' =>
      negb (startswith sep s) &&
      match s with
      | [] => true
      | _ :: s' => no_match_before sep n' s'
      end
  end.

(** No proper suffix of [sep] starts [sep]: two occurrences of such a
    separator never overlap. *)
Definition border_free (sep : str) : bool :=
  forallb (fun k => negb (startswith (drop k sep) sep)) (seq 1 (length sep - 1)).

(** [body] is the text enclosed by the first fenced block of [content]: it
    stands between the first opening marker and the first closing marker
    behind it. *)
Definition first_fenced_block (content body : str) : Prop :=
  exists pre post,
    content = pre ++ fence ++ body ++ ticks ++ post /\
    no_match_before fence (length pre) content = true /\
    no_match_before ticks (length body) (body ++ ticks ++ post) = true.

(** The two markers of a reasoning trace. *)
Definition open_tag : str := lit "<think>".
Definition close_tag : str := lit "</think>".

Definition is_think_tag (t : str) : Prop := t = open_tag \/ t = close_tag.

Definition tag_free (p : str) : Prop :=
  str_in open_tag p = false /\ str_in close_tag p = false.

(** [tags_removed s out]: [s] is cut into marker-free pieces with one marker
    between two neighbours, and [out] is the pieces put together. *)
Inductive tags_removed : str -> str -> Prop :=
| tr_done (p : str) :
    tag_free p -> tags_removed p p
| tr_tag (p t rest out : str) :
    tag_free p -> is_think_tag t -> tags_removed rest out ->
    tags_removed (p ++ t ++ rest) (p ++ out).

(** How many events of a kind a log holds. *)
Fixpoint calls (p : Event -> bool) (l : list Event) : nat :=
  match l with
  | [] => 0
  | e :: l' => (if p e then 1 else 0) + calls p l'
  end.

Definition is_chat (e : Event) : bool :=
  match e with EvChat _ => true | _ => false end.

Definition is_tool (e : Event) : bool :=
  match e with EvTool _ => true | _ => false end.

Definition is_text (e : Event) : bool :=
  match e with EvText _ => true | _ => false end.

(** The [query] field of a structured answer, when the model gave one:
    [None] stands for every way the structured mode fails (the call raised,
    it gave [None], it gave an object without the field). *)
Definition structured_query (r : outcome (option Dict)) : option str :=
  match r with
  | Returns (Some d) => d !! "query"%string
  | _ => None
  end.

(** The four fields of a pipeline state, in their order. *)
Definition fields (s : State) : option str * option str * option str * option str :=
  (s !! "question"%string, s !! "query"%string,
   s !! "result"%string, s !! "answer"%string).

(** What [human_in_the_loop] prints first, the input it gives the graph, the
    checkpoint the thread holds at the pause, and the line that shows the
    query to the operator. *)
Definition banner (question : str) : str :=
  nl ++ lit "Processing with human approval: " ++ question.

Definition asked_state (question : str) : State := {["question"%string := question]}.

Definition paused_checkpoint (question : str) (u : Update) : Checkpoint :=
  mkCheckpoint (u ∪ asked_state question) (Some "execute_query"%string)
    (<["write_query"%string := u]> ∅).

Definition shown_query (q : str) : Event :=
  EvPrint (nl ++ lit "Generated SQL Query:" ++ nl ++ q).

(** The world [human_in_the_loop] hands to the graph. *)
Definition greeted (question : str) (w : World) : World :=
  mkWorld (log w ++ [EvPrint (banner question)]) (memory w).

(** ** Sample collaborators

    Oracles that give the same answer whatever they are asked, to run the
    scripts on concrete inputs. *)
Definition sample_env (structured : outcome (option Dict))
    (chat text tool : outcome str) (reply : str) : Env :=
  {| db_dialect := lit "sqlite";
     db_table_info := fun _ => Returns (lit "CREATE TABLE Employee (EmployeeId INTEGER)");
     structured_llm := fun _ _ => structured;
     llm_chat := fun _ _ => chat;
     llm_text := fun _ _ => text;
     sql_tool := fun _ _ => tool;
     operator := fun _ => reply |}.

Definition empty_world : World := mkWorld [] ∅.

Definition sample_question : str := lit "How many employees are there?".

Definition sample_sql : str := lit "SELECT COUNT(*) FROM Employee".

(** The structured mode fails, the free-text answer holds one fenced block,
    the database refuses the query, the model answers, the operator says no. *)
Definition env_fallback : Env :=
  sample_env (Raises (PyException (lit "bad json")))
    (Returns (lit "```sql" ++ nl ++ sample_sql ++ nl ++ lit "```"))
    (Returns (lit "There was an error."))
    (Raises (PyException (lit "no such table: Employe")))
    (lit "no").

(** The structured mode gives a query wrapped in a fence; the database and
    the model answer; the operator approves. *)
Definition env_structured : Env :=
  sample_env (Returns (Some {["query"%string := lit "```sql SELECT 1```"]}))
    (Returns (lit "unused"))
    (Returns (lit "<thi<think>nk>"))
    (Returns (lit "[(8,)]"))
    (lit "YES").

(** Every collaborator raises. *)
Definition env_down : Env :=
  sample_env (Raises (PyException (lit "rate limit")))
    (Returns sample_sql)
    (Raises (PyException (lit "rate limit")))
    (Raises (PyException (lit "near SELEC: syntax error")))
    (lit "yes ").

(** The model answers with a reasoning trace around its answer. *)
Definition env_thinking : Env :=
  sample_env (Returns None) (Returns sample_sql)
    (Returns (lit "<think>8 rows</think> Eight. "))
    (Returns (lit "[(8,)]"))
    (lit "yes").

(** A state whose result is an error text. *)
Definition failed_state : State :=
  {["result"%string := lit "Error executing query: no such table: Employe"]} ∪
  {["query"%string := lit "SELEC * FORM x"]} ∪ asked_state sample_question.

(** More kinds of events to count. *)
Definition is_input (e : Event) : bool :=
  match e with EvInput _ => true | _ => false end.

Definition is_markdown (e : Event) : bool :=
  match e with EvRender StMarkdown _ => true | _ => false end.

(** What [run_query] prints first. *)
Definition processing (question : str) : str :=
  nl ++ lit "Processing question: " ++ question.

(** Both modes of the model fail. *)
Definition env_silent : Env :=
  sample_env (Raises (PyException (lit "bad json")))
    (Raises (PyException (lit "rate limit")))
    (Returns (lit "unused")) (Returns (lit "unused")) (lit "yes").

(** The model answers with an empty reasoning trace and nothing else. *)
Definition env_blank : Env :=
  sample_env (Returns None) (Returns sample_sql)
    (Returns (lit "<think></think>  ")) (Returns (lit "[(8,)]")) (lit "yes").


(** An error the database tool reports in the text it returns. *)
Definition returned_error : str :=
  lit "Error: (sqlite3.OperationalError) no such table: Employe".

(** The database tool does not raise: it returns the text of its error. *)
Definition env_error_text : Env :=
  sample_env (Returns None) (Returns sample_sql)
    (Returns (lit "The query failed.")) (Returns returned_error) (lit "no").

(** * Properties *)

(** Unfolds a stage down to the calls it makes. *)
Ltac run :=
  unfold Agent.write_query, Agent.execute_query, Agent.generate_answer,
    App.generate_sql, App.execute_sql, App.generate_answer, App.st_error,
    App.render, App.if_truthy,
    get_table_info, invoke_structured, invoke_chat, invoke_text, invoke_tool,
    getitem_opt, getitem, print, emit, call, input, bind, try_except, ret, raise;
  cbn [fst snd log memory].

(** Puts a log in one piece. *)
Ltac norm :=
  repeat progress (cbn [log memory fst snd app exn_message]; rewrite <- ?app_assoc).

(** ** Facts about text *)

(** The text functions on small inputs, as Python answers on the same. *)
Example split_two_fences :
  str_split fence (lit "a```sql b``` c ```sql d ``` e")
    = [lit "a"; lit " b``` c "; lit " d ``` e"].
Proof. reflexivity. Qed.

Example split_runs_of_ticks :
  str_split ticks (lit "a``````b````c") = [lit "a"; lit ""; lit "b"; lit "`c"].
Proof. reflexivity. Qed.

Example split_without_separator : str_split ticks (lit "SELECT 1") = [lit "SELECT 1"].
Proof. reflexivity. Qed.

Example strip_both_ends : strip (nl ++ lit "  SELECT 1; " ++ nl) = lit "SELECT 1;".
Proof. reflexivity. Qed.

Example lower_mixed_case : str_lower (lit "YeS, No") = lit "yes, no".
Proof. reflexivity. Qed.

Example sub_two_markers :
  re_sub_empty App.think_tag (lit "<think>a</think>b</thinks><think")
    = lit "ab</thinks><think".
Proof. reflexivity. Qed.

Example unterminated_fence :
  clean_query (lit "Here: ```sql SELECT 1 ") = lit "SELECT 1".
Proof. reflexivity. Qed.

Example no_fence : clean_query (lit " SELECT 1 " ++ nl) = lit "SELECT 1".
Proof. reflexivity. Qed.

Lemma startswith_app (p t : str) : startswith p (p ++ t) = true.
Proof.
  induction p as [|a p IH]; simpl; [reflexivity|].
  rewrite Ascii.eqb_refl. exact IH.
Qed.

Lemma startswith_inv (p s : str) :
  startswith p s = true -> exists t, s = p ++ t.
Proof.
  revert s. induction p as [|a p IH]; intros s H.
  - exists s. reflexivity.
  - destruct s as [|b s]; simpl in H; [discriminate|].
    apply andb_true_iff in H as [Hab Hps].
    apply Ascii.eqb_eq in Hab. subst b.
    destruct (IH s Hps) as [t ->]. exists t. reflexivity.
Qed.

Lemma startswith_nil_r (p : str) : p <> [] -> startswith p [] = false.
Proof. destruct p; [congruence | reflexivity]. Qed.

(** A prefix test only reads as far as the pattern is long. *)
Lemma startswith_app_l (p s t : str) :
  startswith p s = true -> startswith p (s ++ t) = true.
Proof.
  intros H. destruct (startswith_inv _ _ H) as [u ->].
  rewrite <- app_assoc. apply startswith_app.
Qed.

Lemma startswith_shorter (a b t r : str) :
  a ++ t = b ++ r -> length a <= length b -> startswith a b = true.
Proof.
  revert b. induction a as [|x a IH]; intros b H Hlen; [reflexivity|].
  destruct b as [|y b]; simpl in Hlen; [lia|].
  simpl in H. injection H as -> H. simpl.
  rewrite Ascii.eqb_refl. apply IH; [exact H | lia].
Qed.

Lemma str_in_cons (sep : str) (c : ascii) (s : str) :
  str_in sep (c :: s) = startswith sep (c :: s) || str_in sep s.
Proof. reflexivity. Qed.

Lemma str_in_app_r (sep a b : str) : str_in sep (a ++ sep ++ b) = true.
Proof.
  induction a as [|c a IH].
  - simpl. destruct (sep ++ b) eqn:E.
    + simpl. rewrite <- E. rewrite startswith_app. reflexivity.
    + rewrite str_in_cons, <- E, startswith_app. reflexivity.
  - simpl app. rewrite str_in_cons, IH. apply orb_true_r.
Qed.

Lemma str_in_inv (sep s : str) :
  str_in sep s = true -> exists a b, s = a ++ sep ++ b.
Proof.
  induction s as [|c s IH]; intros H.
  - simpl in H. rewrite orb_false_r in H.
    destruct (startswith_inv _ _ H) as [t Ht]. exists [], t. exact Ht.
  - rewrite str_in_cons in H. apply orb_true_iff in H as [H|H].
    + destruct (startswith_inv _ _ H) as [t Ht]. exists [], t. exact Ht.
    + destruct (IH H) as (a & b & ->). exists (c :: a), b. reflexivity.
Qed.

(** A text that does not hold [sep] has no part that does. *)
Lemma str_in_part (sep a s b : str) :
  str_in sep (a ++ s ++ b) = false -> str_in sep s = false.
Proof.
  intros H. destruct (str_in sep s) eqn:E; [|reflexivity].
  destruct (str_in_inv _ _ E) as (x & y & ->).
  rewrite <- H. symmetry.
  replace (a ++ (x ++ sep ++ y) ++ b) with ((a ++ x) ++ sep ++ (y ++ b))
    by (rewrite <- !app_assoc; reflexivity).
  apply str_in_app_r.
Qed.

(** *** strip keeps a part of the text *)

Lemma lstrip_suffix (s : str) : exists a, s = a ++ lstrip s.
Proof.
  induction s as [|c s [a IH]]; [exists []; reflexivity|].
  simpl. destruct (isspace c).
  - exists (c :: a). simpl. f_equal. exact IH.
  - exists []. reflexivity.
Qed.

Lemma rstrip_prefix (s : str) : exists b, s = rstrip s ++ b.
Proof.
  unfold rstrip. destruct (lstrip_suffix (rev s)) as [a Ha].
  exists (rev a). rewrite <- rev_app_distr, <- Ha, rev_involutive. reflexivity.
Qed.

Lemma strip_part (s : str) : exists a b, s = a ++ strip s ++ b.
Proof.
  unfold strip. destruct (lstrip_suffix s) as [a Ha].
  destruct (rstrip_prefix (lstrip s)) as [b Hb].
  exists a, b. rewrite <- Hb. exact Ha.
Qed.

Lemma strip_keeps_absent (sep s : str) :
  str_in sep s = false -> str_in sep (strip s) = false.
Proof.
  intros H. destruct (strip_part s) as (a & b & E).
  rewrite E in H. exact (str_in_part _ _ _ _ H).
Qed.

(** *** The scan of split *)

Lemma split_go_skip (sep : str) (k : nat) (cur s : str) :
  k <= length s -> split_go sep k cur s = split_go sep 0 cur (drop k s).
Proof.
  revert k. induction s as [|c s IH]; intros k Hk.
  - destruct k; [reflexivity | simpl in Hk; lia].
  - destruct k as [|k]; [reflexivity|].
    simpl in Hk. simpl. apply IH. lia.
Qed.

Lemma split_go_match_cons (a : ascii) (p cur t : str) :
  split_go (a :: p) 0 cur ((a :: p) ++ t) = rev cur :: split_go (a :: p) 0 [] t.
Proof.
  pose proof (startswith_app (a :: p) t) as Hs.
  change ((a :: p) ++ t) with (a :: (p ++ t)) in *.
  cbn [split_go]. rewrite Hs. f_equal.
  cbn [length]. replace (S (length p) - 1) with (length p) by lia.
  rewrite split_go_skip by (rewrite length_app; lia).
  rewrite drop_app_length. reflexivity.
Qed.

Section Split.
Variable sep : str.
Hypothesis sep_nonempty : sep <> [].

Lemma split_go_match (cur t : str) :
  split_go sep 0 cur (sep ++ t) = rev cur :: split_go sep 0 [] t.
Proof using sep_nonempty.
  destruct sep; [congruence | apply split_go_match_cons].
Qed.

Lemma split_go_nomatch (cur : str) (c : ascii) (s : str) :
  startswith sep (c :: s) = false ->
  split_go sep 0 cur (c :: s) = split_go sep 0 (c :: cur) s.
Proof. intros H. cbn [split_go]. rewrite H. reflexivity. Qed.

Lemma split_go_absent (cur s : str) :
  str_in sep s = false -> split_go sep 0 cur s = [rev cur ++ s].
Proof.
  revert cur. induction s as [|c s IH]; intros cur H.
  - simpl. rewrite app_nil_r. reflexivity.
  - rewrite str_in_cons in H. apply orb_false_iff in H as [H1 H2].
    rewrite split_go_nomatch by exact H1. rewrite IH by exact H2.
    simpl. rewrite <- app_assoc. reflexivity.
Qed.

Lemma split_go_not_nil (k : nat) (cur s : str) : split_go sep k cur s <> [].
Proof.
  revert k cur. induction s as [|c s IH]; intros k cur; simpl; [discriminate|].
  destruct k; [|apply IH].
  destruct (startswith sep (c :: s)); [discriminate | apply IH].
Qed.

Lemma item_last_cons (x : str) (l : list str) :
  l <> [] -> item_last (x :: l) = item_last l.
Proof. destruct l; [congruence | reflexivity]. Qed.

(** The text behind the last occurrence. *)
Lemma last_occurrence (s : str) :
  str_in sep s = true ->
  exists pre rest, s = pre ++ sep ++ rest /\ str_in sep rest = false.
Proof using sep_nonempty.
  induction s as [|c s IH]; intros H.
  - simpl in H. rewrite startswith_nil_r in H by exact sep_nonempty. discriminate.
  - destruct (str_in sep s) eqn:E.
    + destruct (IH eq_refl) as (pre & rest & -> & Hr).
      exists (c :: pre), rest. split; [reflexivity | exact Hr].
    + rewrite str_in_cons, E, orb_false_r in H.
      destruct (startswith_inv _ _ H) as [t Ht].
      exists [], t. split; [exact Ht|].
      destruct sep as [|a sep']; [congruence|].
      simpl in Ht. injection Ht as _ ->.
      exact (str_in_part _ sep' t [] ltac:(rewrite app_nil_r; exact E)).
Qed.

(** The text before the first occurrence. *)
Lemma first_occurrence (s : str) :
  str_in sep s = true ->
  exists body post,
    s = body ++ sep ++ post /\ no_match_before sep (length body) s = true.
Proof using sep_nonempty.
  induction s as [|c s IH]; intros H.
  - simpl in H. rewrite startswith_nil_r in H by exact sep_nonempty. discriminate.
  - destruct (startswith sep (c :: s)) eqn:E.
    + destruct (startswith_inv _ _ E) as [t Ht].
      exists [], t. split; [exact Ht | reflexivity].
    + rewrite str_in_cons, E in H. simpl in H.
      destruct (IH H) as (body & post & -> & Hn).
      exists (c :: body), post. split; [reflexivity|].
      cbn [length no_match_before]. rewrite E. exact Hn.
Qed.

Lemma split_go_first (cur body post : str) :
  no_match_before sep (length body) (body ++ sep ++ post) = true ->
  item_first (split_go sep 0 cur (body ++ sep ++ post)) = rev cur ++ body.
Proof using sep_nonempty.
  revert cur. induction body as [|c body IH]; intros cur H.
  - simpl app. rewrite split_go_match. simpl. rewrite app_nil_r. reflexivity.
  - cbn [length no_match_before app] in H.
    apply andb_true_iff in H as [H1 H2]. apply negb_true_iff in H1.
    simpl app. rewrite split_go_nomatch by exact H1.
    rewrite IH by exact H2. simpl. rewrite <- app_assoc. reflexivity.
Qed.

Lemma prefix_of_longer (t pre x : str) :
  sep ++ t = pre ++ x -> length sep <= length pre ->
  exists pre', pre = sep ++ pre' /\ t = pre' ++ x.
Proof.
  clear sep_nonempty. revert pre.
  induction sep as [|a p IH]; intros pre H Hlen.
  - exists pre. split; [reflexivity | exact H].
  - destruct pre as [|b pre]; simpl in Hlen; [lia|].
    simpl in H. injection H as -> H.
    destruct (IH pre H ltac:(lia)) as (pre' & -> & ->).
    exists pre'. split; reflexivity.
Qed.

Hypothesis sep_border_free : border_free sep = true.

Lemma occurrences_apart (t pre rest : str) :
  sep ++ t = pre ++ sep ++ rest -> pre <> [] -> length sep <= length pre.
Proof using sep_border_free.
  intros H Hpre.
  destruct (le_lt_dec (length sep) (length pre)) as [Hle|Hlt]; [exact Hle|].
  exfalso.
  assert (Hk : In (length pre) (seq 1 (length sep - 1))).
  { apply in_seq. destruct pre; [congruence|]. simpl in *. lia. }
  unfold border_free in sep_border_free.
  rewrite forallb_forall in sep_border_free.
  specialize (sep_border_free _ Hk). apply negb_true_iff in sep_border_free.
  assert (E : drop (length pre) sep ++ t = sep ++ rest).
  { rewrite <- (drop_app_length pre (sep ++ rest)), <- H.
    rewrite drop_app_le by lia. reflexivity. }
  rewrite (startswith_shorter _ _ _ _ E) in sep_border_free; [discriminate|].
  rewrite length_drop. lia.
Qed.

Lemma split_go_last (n : nat) :
  forall s cur pre rest,
    length s <= n -> s = pre ++ sep ++ rest -> str_in sep rest = false ->
    item_last (split_go sep 0 cur s) = rest.
Proof using sep_nonempty sep_border_free.
  induction n as [|n IH]; intros s cur pre rest Hn Hs Hr.
  - destruct sep; [congruence|]. subst s. rewrite !length_app in Hn. simpl in Hn. lia.
  - destruct (startswith sep s) eqn:E.
    + destruct (startswith_inv _ _ E) as [t Ht].
      rewrite Ht in Hs, Hn |- *. clear E Ht s.
      rewrite split_go_match, item_last_cons by apply split_go_not_nil.
      destruct pre as [|c pre].
      * simpl in Hs. apply app_inv_head in Hs. subst t.
        rewrite split_go_absent by exact Hr. reflexivity.
      * pose proof (occurrences_apart _ _ _ Hs ltac:(discriminate)) as Hle.
        destruct (prefix_of_longer _ _ _ Hs Hle) as (pre' & Hp & ->).
        apply (IH _ _ pre' rest); [|reflexivity | exact Hr].
        rewrite length_app in Hn.
        destruct sep; [congruence|]. simpl in Hn |- *. lia.
    + destruct pre as [|c pre].
      * subst s. simpl in E. rewrite startswith_app in E. discriminate.
      * subst s. simpl app in *. rewrite split_go_nomatch by exact E.
        apply (IH _ _ pre rest); [simpl in Hn; lia | reflexivity | exact Hr].
Qed.

Lemma str_split_last (pre rest : str) :
  str_in sep rest = false ->
  item_last (str_split sep (pre ++ sep ++ rest)) = rest.
Proof using sep_nonempty sep_border_free.
  intros Hr. unfold str_split.
  exact (split_go_last _ _ [] pre rest (le_n _) eq_refl Hr).
Qed.

End Split.

(** *** The query cut out of a response *)

Lemma fence_nonempty : fence <> [].
Proof. discriminate. Qed.

Lemma ticks_nonempty : ticks <> [].
Proof. discriminate. Qed.

Lemma fence_border_free : border_free fence = true.
Proof. reflexivity. Qed.

(** What [split("```")[0]] keeps of a text. *)
Lemma before_ticks (rest : str) :
  (str_in ticks rest = false /\ item_first (str_split ticks rest) = rest) \/
  (exists body post,
     rest = body ++ ticks ++ post /\
     no_match_before ticks (length body) rest = true /\
     item_first (str_split ticks rest) = body).
Proof.
  destruct (str_in ticks rest) eqn:E.
  - right. destruct (first_occurrence ticks ticks_nonempty rest E)
      as (body & post & Hr & Hn).
    exists body, post. split; [exact Hr|]. split; [exact Hn|].
    unfold str_split. rewrite Hr in Hn |- *.
    exact (split_go_first ticks ticks_nonempty [] body post Hn).
  - left. split; [reflexivity|].
    unfold str_split. rewrite split_go_absent by exact E. reflexivity.
Qed.

Lemma clean_query_cases (content : str) :
  (str_in fence content = false /\ clean_query content = strip content) \/
  (exists pre rest,
     content = pre ++ fence ++ rest /\ str_in fence rest = false /\
     clean_query content = strip (item_first (str_split ticks rest))).
Proof.
  unfold clean_query. destruct (str_in fence content) eqn:E.
  - right. destruct (last_occurrence fence fence_nonempty content E)
      as (pre & rest & Hc & Hr).
    exists pre, rest. split; [exact Hc|]. split; [exact Hr|].
    rewrite Hc, (str_split_last fence fence_nonempty fence_border_free) by exact Hr.
    reflexivity.
  - left. split; reflexivity.
Qed.

Lemma clean_query_no_fence (content : str) :
  str_in fence (clean_query content) = false.
Proof.
  destruct (clean_query_cases content) as [[Ha Hq] | (pre & rest & Hc & Hr & Hq)];
    rewrite Hq; apply strip_keeps_absent; [exact Ha|].
  destruct (before_ticks rest) as [[_ Hf] | (body & post & Hb & _ & Hf)];
    rewrite Hf; [exact Hr|].
  rewrite Hb in Hr.
  exact (str_in_part fence [] body (ticks ++ post) Hr).
Qed.

(** *** The scan of re.sub *)

Lemma sub_go_skip (m : matcher) (k : nat) (s : str) :
  k <= length s -> sub_go m k s = sub_go m 0 (drop k s).
Proof.
  revert k. induction s as [|c s IH]; intros k Hk.
  - destruct k; [reflexivity | simpl in Hk; lia].
  - destruct k as [|k]; [reflexivity|].
    simpl in Hk. simpl. apply IH. lia.
Qed.

Lemma sub_go_match (m : matcher) (t rest : str) :
  t <> [] -> m (t ++ rest) = Some (length t) ->
  re_sub_empty m (t ++ rest) = re_sub_empty m rest.
Proof.
  intros Ht Hm. unfold re_sub_empty.
  destruct t as [|c t]; [congruence|].
  change ((c :: t) ++ rest) with (c :: (t ++ rest)) in *.
  cbn [sub_go]. rewrite Hm. cbn [length].
  replace (S (length t) - 1) with (length t) by lia.
  rewrite sub_go_skip by (rewrite length_app; lia).
  rewrite drop_app_length. reflexivity.
Qed.

Lemma sub_go_nomatch (m : matcher) (c : ascii) (s : str) :
  m (c :: s) = None -> re_sub_empty m (c :: s) = c :: re_sub_empty m s.
Proof. intros H. unfold re_sub_empty. cbn [sub_go]. rewrite H. reflexivity. Qed.

(** *** What the pattern of the markers matches *)

Lemma think_tag_cases (s : str) :
  (exists rest, s = close_tag ++ rest /\ App.think_tag s = Some (length close_tag)) \/
  (exists rest, s = open_tag ++ rest /\ App.think_tag s = Some (length open_tag)) \/
  (startswith open_tag s = false /\ startswith close_tag s = false /\
   App.think_tag s = None).
Proof.
  unfold App.think_tag.
  change open_tag with ("<"%char :: lit "think>").
  change close_tag with ("<"%char :: "/"%char :: lit "think>").
  set (P := lit "think>").
  assert (HP : startswith P ("/"%char :: P) = false) by reflexivity.
  assert (HP' : forall x, startswith P ("/"%char :: x) = false) by reflexivity.
  clearbody P.
  destruct s as [|a s].
  { right. right. repeat split; reflexivity. }
  cbn [startswith re_char]. rewrite (Ascii.eqb_sym "<" a).
  destruct (Ascii.eqb a "<") eqn:Ea; cycle 1.
  { right. right. repeat split; reflexivity. }
  apply Ascii.eqb_eq in Ea. subst a. cbn [andb].
  unfold re_opt_char, re_char, re_lit.
  destruct s as [|b s].
  { right. right. cbn [startswith]. destruct P; [discriminate HP | repeat split; reflexivity]. }
  cbn [startswith]. rewrite (Ascii.eqb_sym "/" b).
  destruct (Ascii.eqb b "/") eqn:Eb.
  - apply Ascii.eqb_eq in Eb. subst b. cbn [andb]. rewrite HP'.
    destruct (startswith P s) eqn:Es.
    + left. destruct (startswith_inv _ _ Es) as [rest ->]. exists rest.
      split; reflexivity.
    + right. right. repeat split; reflexivity.
  - cbn [andb]. destruct (startswith P (b :: s)) eqn:Es.
    + right. left. destruct (startswith_inv _ _ Es) as [rest Hr]. exists rest.
      rewrite Hr. split; reflexivity.
    + right. right. repeat split; reflexivity.
Qed.

(** *** Removing the markers *)

Lemma tag_free_nil : tag_free [].
Proof. split; reflexivity. Qed.

Lemma tag_free_cons (c : ascii) (p : str) :
  tag_free (c :: p) <->
  startswith open_tag (c :: p) = false /\ startswith close_tag (c :: p) = false /\
  tag_free p.
Proof.
  unfold tag_free. rewrite !str_in_cons, !orb_false_iff. tauto.
Qed.

Lemma tags_removed_cons (c : ascii) (s out : str) :
  startswith open_tag (c :: s) = false ->
  startswith close_tag (c :: s) = false ->
  tags_removed s out -> tags_removed (c :: s) (c :: out).
Proof.
  intros Ho Hc H. destruct H as [p Hp | p t rest out Hp Ht Hr].
  - apply tr_done. apply tag_free_cons. auto.
  - apply (tr_tag (c :: p) t rest out); [|exact Ht | exact Hr].
    apply tag_free_cons. split; [|split; [|exact Hp]].
    + destruct (startswith open_tag (c :: p)) eqn:E; [|reflexivity].
      rewrite <- Ho. symmetry. exact (startswith_app_l _ (c :: p) _ E).
    + destruct (startswith close_tag (c :: p)) eqn:E; [|reflexivity].
      rewrite <- Hc. symmetry. exact (startswith_app_l _ (c :: p) _ E).
Qed.

(** The scan removes every marker of the text. *)
Lemma re_sub_removes_tags (s : str) :
  tags_removed s (re_sub_empty App.think_tag s).
Proof.
  remember (length s) as n eqn:Hn.
  revert s Hn. induction n as [n IH] using lt_wf_ind. intros s Hn.
  destruct s as [|c s]; [apply tr_done, tag_free_nil|].
  destruct (think_tag_cases (c :: s))
    as [(rest & Hs & Hm) | [(rest & Hs & Hm) | (Ho & Hc & Hm)]].
  - rewrite Hs in Hm |- *. rewrite sub_go_match by (exact Hm || discriminate).
    apply (tr_tag [] close_tag rest (re_sub_empty App.think_tag rest)); [apply tag_free_nil | right; reflexivity|].
    apply (IH (length rest)); [|reflexivity].
    rewrite Hn, Hs, length_app. simpl. lia.
  - rewrite Hs in Hm |- *. rewrite sub_go_match by (exact Hm || discriminate).
    apply (tr_tag [] open_tag rest (re_sub_empty App.think_tag rest)); [apply tag_free_nil | left; reflexivity|].
    apply (IH (length rest)); [|reflexivity].
    rewrite Hn, Hs, length_app. simpl. lia.
  - rewrite sub_go_nomatch by exact Hm.
    apply tags_removed_cons; [exact Ho | exact Hc|].
    apply (IH (length s)); [rewrite Hn; simpl; lia | reflexivity].
Qed.

(** *** The removal is determined by the text *)

Lemma startswith_before_char (ch : ascii) (p q x : str) :
  ~ In ch p -> startswith p (q ++ ch :: x) = true -> startswith p q = true.
Proof.
  revert q. induction p as [|a p IH]; intros q Hin H; [reflexivity|].
  destruct q as [|b q].
  - simpl in H. apply andb_true_iff in H as [H _].
    apply Ascii.eqb_eq in H. subst. exfalso. apply Hin. left. reflexivity.
  - simpl in H |- *. apply andb_true_iff in H as [H1 H2].
    rewrite H1. simpl. apply IH; [|exact H2].
    intros Hc. apply Hin. right. exact Hc.
Qed.

(** A marker starts with the only [<] it holds, so none starts before a
    marker and runs into it. *)
Lemma tag_not_across (tag p x : str) (c : ascii) :
  is_think_tag tag ->
  startswith tag ((c :: p) ++ "<"%char :: x) = true ->
  startswith tag (c :: p) = true.
Proof.
  assert (G : forall P : str, ~ In "<"%char P ->
            startswith ("<"%char :: P) ((c :: p) ++ "<"%char :: x) = true ->
            startswith ("<"%char :: P) (c :: p) = true).
  { intros P HP H. cbn [startswith app] in H |- *.
    apply andb_true_iff in H as [H1 H2]. rewrite H1. cbn [andb].
    exact (startswith_before_char "<" P p x HP H2). }
  intros [-> | ->]; apply G; simpl; intros H;
    repeat (destruct H as [H|H]; [discriminate H|]); exact H.
Qed.

Lemma is_think_tag_head (t : str) :
  is_think_tag t -> exists x, t = "<"%char :: x.
Proof. intros [-> | ->]; eexists; reflexivity. Qed.

Lemma no_tag_before (p t rest : str) (c : ascii) :
  tag_free (c :: p) -> is_think_tag t ->
  App.think_tag ((c :: p) ++ t ++ rest) = None.
Proof.
  intros Hp Ht. apply tag_free_cons in Hp as (Ho & Hc & _).
  destruct (is_think_tag_head t Ht) as [x ->].
  destruct (think_tag_cases ((c :: p) ++ ("<"%char :: x) ++ rest))
    as [(r & Hs & _) | [(r & Hs & _) | (_ & _ & Hm)]]; [| |exact Hm]; exfalso.
  - assert (E : startswith close_tag ((c :: p) ++ "<"%char :: x ++ rest) = true).
    { change (("<"%char :: x) ++ rest) with ("<"%char :: x ++ rest) in Hs.
      rewrite Hs. apply startswith_app. }
    rewrite (tag_not_across close_tag p (x ++ rest) c) in Hc;
      [discriminate | right; reflexivity | exact E].
  - assert (E : startswith open_tag ((c :: p) ++ "<"%char :: x ++ rest) = true).
    { change (("<"%char :: x) ++ rest) with ("<"%char :: x ++ rest) in Hs.
      rewrite Hs. apply startswith_app. }
    rewrite (tag_not_across open_tag p (x ++ rest) c) in Ho;
      [discriminate | left; reflexivity | exact E].
Qed.

Lemma re_sub_tag_free (p : str) :
  tag_free p -> re_sub_empty App.think_tag p = p.
Proof.
  induction p as [|c p IH]; intros Hp; [reflexivity|].
  pose proof Hp as Hp'. apply tag_free_cons in Hp' as (Ho & Hc & Hf).
  destruct (think_tag_cases (c :: p))
    as [(r & Hs & _) | [(r & Hs & _) | (_ & _ & Hm)]].
  - rewrite Hs, startswith_app in Hc. discriminate.
  - rewrite Hs, startswith_app in Ho. discriminate.
  - rewrite sub_go_nomatch by exact Hm. rewrite IH by exact Hf. reflexivity.
Qed.

Lemma re_sub_at_tag (t rest : str) :
  is_think_tag t ->
  re_sub_empty App.think_tag (t ++ rest) = re_sub_empty App.think_tag rest.
Proof.
  intros [-> | ->]; apply sub_go_match; try discriminate; reflexivity.
Qed.

Lemma re_sub_before_tag (p t rest : str) :
  tag_free p -> is_think_tag t ->
  re_sub_empty App.think_tag (p ++ t ++ rest) = p ++ re_sub_empty App.think_tag rest.
Proof.
  induction p as [|c p IH]; intros Hp Ht.
  - simpl. apply re_sub_at_tag. exact Ht.
  - pose proof (no_tag_before p t rest c Hp Ht) as Hm.
    apply tag_free_cons in Hp as (_ & _ & Hf).
    change ((c :: p) ++ t ++ rest) with (c :: (p ++ t ++ rest)) in *.
    rewrite sub_go_nomatch by exact Hm. rewrite IH by assumption. reflexivity.
Qed.

Lemma tags_removed_unique (s out : str) :
  tags_removed s out -> out = re_sub_empty App.think_tag s.
Proof.
  induction 1 as [p Hp | p t rest out Hp Ht _ IH].
  - symmetry. apply re_sub_tag_free. exact Hp.
  - rewrite re_sub_before_tag by assumption. rewrite IH. reflexivity.
Qed.

(** *** The stages, one by one *)

Lemma execute_query_run (env : Env) (state : State) (w : World) (q : str) :
  state !! "query"%string = Some q ->
  Agent.execute_query env state w =
    (Returns {["result"%string :=
                match sql_tool env (log w) q with
                | Returns r => r
                | Raises e => lit "Error executing query: " ++ exn_message e
                end]},
     mkWorld (log w ++ [EvTool q]) (memory w)).
Proof.
  intros Hq. run. rewrite Hq. cbn [log memory].
  destruct (sql_tool env (log w) q); reflexivity.
Qed.

Lemma execute_query_total (env : Env) (state : State) (w : World) :
  exists r, fst (Agent.execute_query env state w) = Returns {["result"%string := r]}.
Proof.
  run. destruct (state !! "query"%string) as [q|]; cbn [log memory].
  - destruct (sql_tool env (log w) q); eexists; reflexivity.
  - eexists; reflexivity.
Qed.

Lemma generate_answer_run (env : Env) (state : State) (w : World)
    (question query result : str) :
  state !! "question"%string = Some question ->
  state !! "query"%string = Some query ->
  state !! "result"%string = Some result ->
  Agent.generate_answer env state w =
    (Returns {["answer"%string :=
                match llm_text env (log w) (Agent.answer_prompt question query result) with
                | Returns content => content
                | Raises e => lit "Error generating answer: " ++ exn_message e
                end]},
     mkWorld (log w ++ [EvText (Agent.answer_prompt question query result)]) (memory w)).
Proof.
  intros H1 H2 H3. run. rewrite H1. cbn. rewrite H2. cbn. rewrite H3. cbn.
  destruct (llm_text env (log w) _); reflexivity.
Qed.

Lemma write_query_memory (env : Env) (state : State) (w : World) :
  memory (snd (Agent.write_query env state w)) = memory w.
Proof.
  run. destruct (db_table_info env (log w)); [|reflexivity]. cbn [log memory].
  destruct (state !! "question"%string); [|reflexivity]. cbn [log memory].
  destruct (structured_llm env _ _) as [[d|]|e]; cbn [log memory].
  1: destruct (d !! "query"%string); cbn [log memory]; [reflexivity|].
  all: destruct (llm_chat env _ _); reflexivity.
Qed.

Lemma write_query_update (env : Env) (state : State) (w : World) (u : Update) :
  fst (Agent.write_query env state w) = Returns u ->
  exists q, u = {["query"%string := q]}.
Proof.
  run. destruct (db_table_info env (log w)); [|discriminate]. cbn [log memory].
  destruct (state !! "question"%string); [|discriminate]. cbn [log memory].
  destruct (structured_llm env _ _) as [[d|]|e]; cbn [log memory].
  1: destruct (d !! "query"%string); cbn [log memory fst];
     [intros [= <-]; eexists; reflexivity|].
  all: destruct (llm_chat env _ _); cbn [fst]; [|discriminate];
    intros [= <-]; eexists; reflexivity.
Qed.

(** A stage reads the log, never the checkpoints. *)
Lemma write_query_log_only (env : Env) (state : State) (l : list Event)
    (m m' : gmap string Checkpoint) :
  Agent.write_query env state (mkWorld l m') =
    (fst (Agent.write_query env state (mkWorld l m)),
     mkWorld (log (snd (Agent.write_query env state (mkWorld l m)))) m').
Proof.
  run. destruct (db_table_info env l); [|reflexivity]. cbn [log memory].
  destruct (state !! "question"%string); [|reflexivity]. cbn [log memory].
  destruct (structured_llm env _ _) as [[d|]|e]; cbn [log memory].
  1: destruct (d !! "query"%string); cbn [log memory]; [reflexivity|].
  all: destruct (llm_chat env _ _); reflexivity.
Qed.

(** *** The graph *)

Lemma run_steps_step (fuel : nat) (g : Agent.CompiledGraph) (thread : option string)
    (resumed : bool) (cp : Checkpoint) (on_step : string -> Update -> M unit)
    (n : string) (node : State -> M Update) :
  next_node cp = Some n ->
  negb resumed && Agent.name_in n (Agent.interrupt_before g) = false ->
  Agent.find_node n (Agent.nodes (Agent.builder g)) = Some node ->
  Agent.run_steps (S fuel) g thread resumed cp on_step =
    (let* u := node (channels cp) in
     let cp' := mkCheckpoint (u ∪ channels cp)
                  (Agent.successor n (Agent.edges (Agent.builder g)))
                  (<[n := u]> (values cp)) in
     Agent.save g thread cp' ;;
     on_step n u ;;
     Agent.run_steps fuel g thread false cp' on_step).
Proof.
  intros Hn Hi Hf. cbn [Agent.run_steps]. rewrite Hn, Hi, Hf. reflexivity.
Qed.

Lemma run_steps_interrupt (fuel : nat) (g : Agent.CompiledGraph) (thread : option string)
    (cp : Checkpoint) (on_step : string -> Update -> M unit) (n : string) :
  next_node cp = Some n ->
  Agent.name_in n (Agent.interrupt_before g) = true ->
  Agent.run_steps fuel g thread false cp on_step = ret tt.
Proof.
  intros Hn Hi. destruct fuel; cbn [Agent.run_steps]; rewrite Hn, Hi; reflexivity.
Qed.

Lemma run_steps_end (fuel : nat) (g : Agent.CompiledGraph) (thread : option string)
    (resumed : bool) (cp : Checkpoint) (on_step : string -> Update -> M unit) :
  next_node cp = None ->
  Agent.run_steps fuel g thread resumed cp on_step = ret tt.
Proof.
  intros Hn. destruct fuel; cbn [Agent.run_steps]; rewrite Hn; reflexivity.
Qed.

Lemma save_returns (g : Agent.CompiledGraph) (thread : option string)
    (cp : Checkpoint) (w : World) :
  fst (Agent.save g thread cp w) = Returns tt /\
  log (snd (Agent.save g thread cp w)) = log w.
Proof.
  unfold Agent.save. destruct (Agent.checkpointer g), thread; split; reflexivity.
Qed.

Lemma run_from_execute (env : Env) (g : Agent.CompiledGraph) (thread : option string)
    (resumed : bool) (cp : Checkpoint) (w : World) (question q : str) :
  Agent.builder g = Agent.graph_builder env ->
  Agent.name_in "generate_answer" (Agent.interrupt_before g) = false ->
  negb resumed && Agent.name_in "execute_query" (Agent.interrupt_before g) = false ->
  next_node cp = Some "execute_query"%string ->
  channels cp !! "question"%string = Some question ->
  channels cp !! "query"%string = Some q ->
  let result :=
    match sql_tool env (log w) q with
    | Returns r => r
    | Raises e => lit "Error executing query: " ++ exn_message e
    end in
  let u2 : Update := {["result"%string := result]} in
  let cp2 := mkCheckpoint (u2 ∪ channels cp) (Some "generate_answer"%string)
               (<["execute_query"%string := u2]> (values cp)) in
  let prompt := Agent.answer_prompt question q result in
  let h3 := log w ++ [EvTool q; EvPrintStep "execute_query" u2] in
  let answer :=
    match llm_text env h3 prompt with
    | Returns content => content
    | Raises e => lit "Error generating answer: " ++ exn_message e
    end in
  let u3 : Update := {["answer"%string := answer]} in
  let cp3 := mkCheckpoint (u3 ∪ channels cp2) None
               (<["generate_answer"%string := u3]> (values cp2)) in
  exists w',
    Agent.run_steps Agent.recursion_limit g thread resumed cp Agent.print_step w
      = (Returns tt, w') /\
    log w' = h3 ++ [EvText prompt; EvPrintStep "generate_answer" u3] /\
    memory w' = memory (snd (Agent.save g thread cp3 (snd (Agent.save g thread cp2 w)))).
Proof.
  intros Hb Hg He Hn Hquestion Hq result u2 cp2 prompt h3 answer u3 cp3.
  unfold Agent.recursion_limit.
  rewrite (run_steps_step _ g thread resumed cp _ "execute_query" (Agent.execute_query env))
    by (assumption || (rewrite Hb; reflexivity)).
  unfold bind at 1. rewrite (execute_query_run env _ w q Hq).
  rewrite Hb. change (Agent.successor "execute_query" (Agent.edges (Agent.graph_builder env)))
    with (Some "generate_answer"%string).
  fold result. fold u2. fold cp2.
  unfold bind at 1.
  destruct (save_returns g thread cp2 (mkWorld (log w ++ [EvTool q]) (memory w)))
    as [Hr2 Hl2].
  assert (Hm2 : memory (snd (Agent.save g thread cp2
                   (mkWorld (log w ++ [EvTool q]) (memory w)))) =
                memory (snd (Agent.save g thread cp2 w))).
  { unfold Agent.save. destruct (Agent.checkpointer g), thread; reflexivity. }
  destruct (Agent.save g thread cp2 _) as [r2 w2].
  cbn [fst snd log] in Hr2, Hl2, Hm2. subst r2.
  unfold bind at 1. unfold Agent.print_step at 1, emit.
  rewrite (run_steps_step _ g thread false cp2 _ "generate_answer" (Agent.generate_answer env))
    by (reflexivity || assumption || (rewrite Hb; reflexivity)).
  unfold bind at 1.
  rewrite (generate_answer_run env (channels cp2) _ question q result);
    [| | |].
  2: { unfold cp2. cbn [channels]. rewrite lookup_union_r; [exact Hquestion|].
       unfold u2. apply lookup_singleton_ne. discriminate. }
  2: { unfold cp2. cbn [channels]. rewrite lookup_union_r; [exact Hq|].
       unfold u2. apply lookup_singleton_ne. discriminate. }
  2: { unfold cp2. cbn [channels]. apply lookup_union_Some_l.
       unfold u2. apply lookup_singleton_eq. }
  cbn [log memory]. rewrite Hl2. rewrite <- app_assoc. cbn [app].
  fold prompt. fold h3. fold answer. fold u3.
  rewrite Hb. change (Agent.successor "generate_answer" (Agent.edges (Agent.graph_builder env)))
    with (@None string).
  fold cp3.
  unfold bind at 1.
  match goal with
  | |- context [Agent.save g thread cp3 ?x] =>
      destruct (save_returns g thread cp3 x) as [Hr3 Hl3];
      assert (Hm3 : memory (snd (Agent.save g thread cp3 x)) =
                    memory (snd (Agent.save g thread cp3 w2)))
        by (unfold Agent.save; destruct (Agent.checkpointer g), thread; reflexivity)
  end.
  destruct (Agent.save g thread cp3 _) as [r3 w3].
  cbn [fst snd log] in Hr3, Hl3, Hm3. subst r3.
  unfold bind at 1. unfold Agent.print_step at 1, emit.
  rewrite run_steps_end by reflexivity.
  eexists. split; [reflexivity|]. cbn [log memory]. rewrite Hl3, Hm3.
  rewrite <- app_assoc. split; [reflexivity|].
  unfold Agent.save. unfold Agent.save in Hm2.
  destruct (Agent.checkpointer g), thread; cbn [snd memory] in *;
    rewrite ?Hm2; reflexivity.
Qed.

(** *** The approval flow *)

Lemma bind_returns {A B : Type} (m : M A) (k : A -> M B) (w w' : World) (a : A) :
  m w = (Returns a, w') -> bind m k w = k a w'.
Proof. intros H. unfold bind. rewrite H. reflexivity. Qed.

Lemma bind_raises {A B : Type} (m : M A) (k : A -> M B) (w w' : World) (e : exn) :
  m w = (Raises e, w') -> bind m k w = (Raises e, w').
Proof. intros H. unfold bind. rewrite H. reflexivity. Qed.

Lemma save_graph (env : Env) (cp : Checkpoint) (l : list Event)
    (m : gmap string Checkpoint) :
  Agent.save (Agent.graph env) (Some Agent.thread_id) cp (mkWorld l m) =
    (Returns tt, mkWorld l (<[Agent.thread_id := cp]> m)).
Proof. reflexivity. Qed.

Lemma print_step_run (n : string) (u : Update) (w : World) :
  Agent.print_step n u w = (Returns tt, mkWorld (log w ++ [EvPrintStep n u]) (memory w)).
Proof. reflexivity. Qed.

Lemma print_run (line : str) (w : World) :
  print line w = (Returns tt, mkWorld (log w ++ [EvPrint line]) (memory w)).
Proof. reflexivity. Qed.

Lemma stream_first (env : Env) (question : str) (w : World) :
  memory w !! Agent.thread_id = None ->
  Agent.stream (Agent.graph env) (Some (asked_state question))
      (Some Agent.thread_id) Agent.print_step w =
    match Agent.write_query env (asked_state question) w with
    | (Returns u, w1) =>
        (Returns tt,
         mkWorld (log w1 ++ [EvPrintStep "write_query" u])
           (<[Agent.thread_id := paused_checkpoint question u]> (memory w)))
    | (Raises e, w1) =>
        (Raises e,
         mkWorld (log w1)
           (<[Agent.thread_id :=
                mkCheckpoint (asked_state question) (Some "write_query"%string) ∅]>
              (memory w)))
    end.
Proof.
  intros Hfresh. destruct w as [l m]. cbn [memory] in Hfresh.
  unfold Agent.stream.
  erewrite bind_returns
    by (unfold Agent.prior, Agent.memory_get; cbn; rewrite Hfresh; reflexivity).
  cbn beta iota zeta.
  erewrite bind_returns by apply save_graph.
  unfold Agent.recursion_limit.
  rewrite (run_steps_step _ _ _ false _ _ "write_query" (Agent.write_query env))
    by reflexivity.
  cbn [channels values].
  pose proof (write_query_log_only env (asked_state question) l m
    (<[Agent.thread_id :=
         mkCheckpoint (asked_state question) (Some "write_query"%string) ∅]> m)) as Hlo.
  pose proof (write_query_memory env (asked_state question) (mkWorld l m)) as Hm.
  destruct (Agent.write_query env (asked_state question) (mkWorld l m)) as [[u|e] [l1 m1]];
    cbn [fst snd log memory] in *; subst m1.
  - erewrite bind_returns by exact Hlo.
    cbn beta iota zeta.
    erewrite bind_returns by apply save_graph.
    erewrite bind_returns by apply print_step_run.
    rewrite run_steps_interrupt with (n := "execute_query"%string) by reflexivity.
    unfold ret. cbn [log memory]. rewrite insert_insert_eq. reflexivity.
  - erewrite bind_raises by exact Hlo. reflexivity.
Qed.

Lemma try_returns {A : Type} (m : M A) (h : exn -> M A) (w w' : World) (a : A) :
  m w = (Returns a, w') -> try_except m h w = (Returns a, w').
Proof. intros H. unfold try_except. rewrite H. reflexivity. Qed.

Lemma input_run (env : Env) (prompt : str) (w : World) :
  input env prompt w =
    (Returns (operator env (log w)), mkWorld (log w ++ [EvInput prompt]) (memory w)).
Proof. reflexivity. Qed.

Lemma memory_get_run (t : string) (w : World) :
  Agent.memory_get t w = (Returns (memory w !! t), w).
Proof. reflexivity. Qed.

(** The run up to the operator's reply, when stage 1 completes. *)
Lemma human_in_the_loop_asks (env : Env) (question : str) (w w1 : World)
    (q : str) (k : str -> M unit) :
  memory w !! Agent.thread_id = None ->
  Agent.write_query env (asked_state question)
      (mkWorld (log w ++ [EvPrint (banner question)]) (memory w))
    = (Returns {["query"%string := q]}, w1) ->
  let u : Update := {["query"%string := q]} in
  let asked := log w1 ++ [EvPrintStep "write_query" u; shown_query q] in
  (Agent.stream (Agent.graph env) (Some (asked_state question))
      (Some Agent.thread_id) Agent.print_step ;;
   let* thread_state := Agent.memory_get Agent.thread_id in
   let* generated_query := Agent.node_value "write_query" "query" thread_state in
   print (nl ++ lit "Generated SQL Query:" ++ nl ++ generated_query) ;;
   let* answer := input env Agent.approval_prompt in
   k answer)
    (mkWorld (log w ++ [EvPrint (banner question)]) (memory w))
  = k (operator env asked)
      (mkWorld (asked ++ [EvInput Agent.approval_prompt])
         (<[Agent.thread_id := paused_checkpoint question u]> (memory w))).
Proof.
  intros Hfresh Hw u asked.
  erewrite bind_returns; cycle 1.
  { rewrite stream_first by exact Hfresh. rewrite Hw. reflexivity. }
  erewrite bind_returns by apply memory_get_run.
  cbn [memory]. rewrite lookup_insert_eq.
  erewrite bind_returns by reflexivity.
  erewrite bind_returns by apply print_run.
  erewrite bind_returns by apply input_run.
  cbn [log memory]. unfold asked, shown_query, u.
  rewrite <- !app_assoc. reflexivity.
Qed.

Lemma human_in_the_loop_rejected (env : Env) (question : str) (w w1 : World) (q : str) :
  memory w !! Agent.thread_id = None ->
  Agent.write_query env (asked_state question)
      (mkWorld (log w ++ [EvPrint (banner question)]) (memory w))
    = (Returns {["query"%string := q]}, w1) ->
  let u : Update := {["query"%string := q]} in
  let asked := log w1 ++ [EvPrintStep "write_query" u; shown_query q] in
  str_eqb (str_lower (operator env asked)) (lit "yes") = false ->
  Agent.human_in_the_loop env question w =
    (Returns tt,
     mkWorld (asked ++ [EvInput Agent.approval_prompt; EvPrint Agent.cancelled])
       (<[Agent.thread_id := paused_checkpoint question u]> (memory w))).
Proof.
  intros Hfresh Hw u asked Hno.
  unfold Agent.human_in_the_loop.
  erewrite bind_returns by apply print_run.
  apply try_returns.
  fold (asked_state question). fold (banner question).
  rewrite (human_in_the_loop_asks env question w w1 q _ Hfresh Hw).
  fold u. fold asked. cbn beta zeta. rewrite Hno.
  rewrite print_run. cbn [log memory]. rewrite <- app_assoc. reflexivity.
Qed.

Lemma stream_resume (env : Env) (cp : Checkpoint) (w : World) :
  memory w !! Agent.thread_id = Some cp ->
  Agent.stream (Agent.graph env) None (Some Agent.thread_id) Agent.print_step w =
    Agent.run_steps Agent.recursion_limit (Agent.graph env) (Some Agent.thread_id)
      true cp Agent.print_step w.
Proof.
  intros Hcp. unfold Agent.stream.
  erewrite bind_returns
    by (unfold Agent.prior; cbn [Agent.graph Agent.checkpointer]; apply memory_get_run).
  rewrite Hcp. reflexivity.
Qed.

Lemma human_in_the_loop_approved (env : Env) (question : str) (w w1 : World) (q : str) :
  memory w !! Agent.thread_id = None ->
  Agent.write_query env (asked_state question)
      (mkWorld (log w ++ [EvPrint (banner question)]) (memory w))
    = (Returns {["query"%string := q]}, w1) ->
  let u : Update := {["query"%string := q]} in
  let asked := log w1 ++ [EvPrintStep "write_query" u; shown_query q] in
  str_eqb (str_lower (operator env asked)) (lit "yes") = true ->
  let h2 := asked ++ [EvInput Agent.approval_prompt] in
  let result :=
    match sql_tool env h2 q with
    | Returns r => r
    | Raises e => lit "Error executing query: " ++ exn_message e
    end in
  let u2 : Update := {["result"%string := result]} in
  let prompt := Agent.answer_prompt question q result in
  let h3 := h2 ++ [EvTool q; EvPrintStep "execute_query" u2] in
  let answer :=
    match llm_text env h3 prompt with
    | Returns content => content
    | Raises e => lit "Error generating answer: " ++ exn_message e
    end in
  let u3 : Update := {["answer"%string := answer]} in
  let cp1 := paused_checkpoint question u in
  let cp2 := mkCheckpoint (u2 ∪ channels cp1) (Some "generate_answer"%string)
               (<["execute_query"%string := u2]> (values cp1)) in
  let cp3 := mkCheckpoint (u3 ∪ channels cp2) None
               (<["generate_answer"%string := u3]> (values cp2)) in
  Agent.human_in_the_loop env question w =
    (Returns tt,
     mkWorld (h3 ++ [EvText prompt; EvPrintStep "generate_answer" u3;
                     EvPrint (nl ++ lit "Final Answer: " ++ answer)])
       (<[Agent.thread_id := cp3]>
          (<[Agent.thread_id := cp2]>
             (<[Agent.thread_id := cp1]> (memory w))))).
Proof.
  intros Hfresh Hw u asked Hyes h2 result u2 prompt h3 answer u3 cp1 cp2 cp3.
  unfold Agent.human_in_the_loop.
  erewrite bind_returns by apply print_run.
  fold (asked_state question). fold (banner question).
  unfold try_except.
  rewrite (human_in_the_loop_asks env question w w1 q _ Hfresh Hw).
  fold u. fold asked. cbn beta zeta. rewrite Hyes. fold h2. fold cp1.
  set (m1 := <[Agent.thread_id := cp1]> (memory w)).
  destruct (run_from_execute env (Agent.graph env) (Some Agent.thread_id) true
              cp1 (mkWorld h2 m1) question q)
    as (w' & Hrun & Hlog & Hmem); try reflexivity.
  cbn [log] in Hrun, Hlog, Hmem.
  fold result in Hrun, Hlog, Hmem. fold u2 in Hrun, Hlog, Hmem.
  fold cp2 in Hrun, Hlog, Hmem.
  fold prompt in Hrun, Hlog, Hmem. fold h3 in Hrun, Hlog, Hmem.
  fold answer in Hrun, Hlog, Hmem. fold u3 in Hrun, Hlog, Hmem.
  fold cp3 in Hrun, Hlog, Hmem.
  erewrite bind_returns; cycle 1.
  { rewrite (stream_resume env cp1) by apply lookup_insert_eq. exact Hrun. }
  erewrite bind_returns by apply memory_get_run.
  destruct w' as [l' m']. cbn [log memory] in *.
  unfold Agent.save in Hmem. cbn [Agent.graph Agent.checkpointer snd memory] in Hmem.
  subst m' l'. rewrite lookup_insert_eq.
  erewrite bind_returns; cycle 1.
  { unfold Agent.node_value. unfold cp3 at 1. cbn [values]. rewrite lookup_insert_eq.
    unfold getitem, u3. rewrite lookup_singleton_eq. reflexivity. }
  rewrite print_run. cbn [log memory]. rewrite <- app_assoc. reflexivity.
Qed.

(** *** The operator's reply *)

Lemma str_eqb_eq (a b : str) : str_eqb a b = true <-> a = b.
Proof.
  revert b. induction a as [|x a IH]; intros [|y b]; simpl;
    try (split; [discriminate | congruence]); [split; reflexivity|].
  rewrite andb_true_iff, Ascii.eqb_eq, IH. split.
  - intros [-> ->]. reflexivity.
  - intros [= -> ->]. split; reflexivity.
Qed.

Lemma lower_char_y (c : ascii) : lower_char c = "y"%char <-> c = "y"%char \/ c = "Y"%char.
Proof.
  destruct c as [[] [] [] [] [] [] [] []]; vm_compute;
    (split; [intros H; first [discriminate H | left; reflexivity | right; reflexivity]
            | intros [H|H]; first [discriminate H | reflexivity]]).
Qed.

Lemma lower_char_e (c : ascii) : lower_char c = "e"%char <-> c = "e"%char \/ c = "E"%char.
Proof.
  destruct c as [[] [] [] [] [] [] [] []]; vm_compute;
    (split; [intros H; first [discriminate H | left; reflexivity | right; reflexivity]
            | intros [H|H]; first [discriminate H | reflexivity]]).
Qed.

Lemma lower_char_s (c : ascii) : lower_char c = "s"%char <-> c = "s"%char \/ c = "S"%char.
Proof.
  destruct c as [[] [] [] [] [] [] [] []]; vm_compute;
    (split; [intros H; first [discriminate H | left; reflexivity | right; reflexivity]
            | intros [H|H]; first [discriminate H | reflexivity]]).
Qed.

(** The replies that count as approval. *)
Lemma str_lower_yes (s : str) :
  str_lower s = lit "yes" <->
  exists a b c,
    s = [a; b; c] /\ (a = "y" \/ a = "Y")%char /\ (b = "e" \/ b = "E")%char /\
    (c = "s" \/ c = "S")%char.
Proof.
  split.
  - destruct s as [|a [|b [|c [|d s]]]]; try discriminate.
    intros H. injection H as Ha Hb Hc.
    exists a, b, c. split; [reflexivity|].
    rewrite <- lower_char_y, <- lower_char_e, <- lower_char_s. auto.
  - intros (a & b & c & -> & Ha & Hb & Hc).
    apply lower_char_y in Ha. apply lower_char_e in Hb. apply lower_char_s in Hc.
    unfold str_lower. simpl. rewrite Ha, Hb, Hc. reflexivity.
Qed.

(** *** The page *)

Lemma generate_sql_events (env : Env) (question : str) (w : World) :
  exists o new,
    App.generate_sql env question w = (Returns o, mkWorld (log w ++ new) (memory w)) /\
    calls is_tool new = 0 /\ calls is_text new = 0.
Proof.
  run. destruct (db_table_info env (log w)); cbn [log memory].
  - destruct (llm_chat env _ _); cbn [log memory]; rewrite <- ?app_assoc;
      eexists; eexists; (split; [reflexivity|]); split; reflexivity.
  - rewrite <- ?app_assoc. eexists; eexists; (split; [reflexivity|]); split; reflexivity.
Qed.

Lemma execute_sql_run (env : Env) (query : str) (w : World) :
  App.execute_sql env query w =
    match sql_tool env (log w) query with
    | Returns r => (Returns (Some r), mkWorld (log w ++ [EvTool query]) (memory w))
    | Raises e =>
        (Returns None,
         mkWorld (log w ++ [EvTool query;
                            EvRender StError (lit "Execution Error: " ++ exn_message e)])
           (memory w))
    end.
Proof.
  run. destruct (sql_tool env (log w) query); cbn [log memory]; [reflexivity|].
  rewrite <- app_assoc. reflexivity.
Qed.

Lemma web_answer_run (env : Env) (question query result : str) (w : World) :
  App.generate_answer env question query result w =
    match llm_text env (log w) (App.answer_prompt question query result) with
    | Returns content =>
        (Returns (Some (strip (re_sub_empty App.think_tag content))),
         mkWorld (log w ++ [EvText (App.answer_prompt question query result)]) (memory w))
    | Raises e =>
        (Returns None,
         mkWorld (log w ++ [EvText (App.answer_prompt question query result);
                            EvRender StError (lit "Answer generation failed: " ++ exn_message e)])
           (memory w))
    end.
Proof.
  run. destruct (llm_text env (log w) _); cbn [log memory]; [reflexivity|].
  rewrite <- app_assoc. reflexivity.
Qed.

Lemma calls_app (p : Event -> bool) (a b : list Event) :
  calls p (a ++ b) = calls p a + calls p b.
Proof. induction a as [|e a IH]; simpl; [reflexivity|]. rewrite IH. lia. Qed.

Lemma stream_first_returns (env : Env) (question : str) (w w1 : World) (u : Update) :
  memory w !! Agent.thread_id = None ->
  Agent.write_query env (asked_state question) (greeted question w) = (Returns u, w1) ->
  Agent.stream (Agent.graph env) (Some (asked_state question))
      (Some Agent.thread_id) Agent.print_step (greeted question w) =
    (Returns tt,
     mkWorld (log w1 ++ [EvPrintStep "write_query" u])
       (<[Agent.thread_id := paused_checkpoint question u]> (memory w))).
Proof.
  intros Hfresh Hw. rewrite stream_first by exact Hfresh. rewrite Hw. reflexivity.
Qed.

Lemma generate_answer_update (env : Env) (state : State) (w : World) (u : Update) :
  fst (Agent.generate_answer env state w) = Returns u ->
  exists a, u = {["answer"%string := a]}.
Proof.
  run. destruct (state !! "question"%string); [|discriminate]. cbn [fst].
  destruct (state !! "query"%string); [|discriminate]. cbn [fst].
  destruct (state !! "result"%string); [|discriminate]. cbn [fst log].
  destruct (llm_text env _ _); cbn [fst]; intros [= <-]; eexists; reflexivity.
Qed.

(** * The specification, claim by claim *)

(** ** C1: The query cut out of a free-text response *)

(** C1, as the code has it.  For every response text of the free-text mode:
    when the text holds no [```sql] marker, the query is the whole text,
    trimmed; otherwise the query is what stands behind the last [```sql]
    marker, up to the first [```] that follows it, or up to the end of the
    text when none follows, trimmed. *)
Theorem clean_query_last_block (content : str) :
  (str_in fence content = false /\ clean_query content = strip content) \/
  (exists pre rest,
     content = pre ++ fence ++ rest /\ str_in fence rest = false /\
     ((str_in ticks rest = false /\ clean_query content = strip rest) \/
      (exists body post,
         rest = body ++ ticks ++ post /\
         no_match_before ticks (length body) rest = true /\
         clean_query content = strip body))).
Proof.
  destruct (clean_query_cases content) as [H | (pre & rest & Hc & Hr & Hq)];
    [left; exact H | right].
  exists pre, rest. split; [exact Hc|]. split; [exact Hr|].
  destruct (before_ticks rest) as [[Ht Hf] | (body & post & Hb & Hn & Hf)].
  - left. split; [exact Ht|]. rewrite Hq, Hf. reflexivity.
  - right. exists body, post. split; [exact Hb|]. split; [exact Hn|].
    rewrite Hq, Hf. reflexivity.
Qed.

(** C1 as stated fails on a response with two fenced blocks: the first block
    encloses [ A], and the query is [B], the text of the last block. *)
Lemma clean_query_not_first_block :
  first_fenced_block (lit "```sql A``` ```sql B```") (lit " A") /\
  clean_query (lit "```sql A``` ```sql B```") = lit "B" /\
  clean_query (lit "```sql A``` ```sql B```") <> strip (lit " A").
Proof.
  split; [|split].
  - exists (lit ""), (lit " ```sql B```"). repeat split; reflexivity.
  - reflexivity.
  - vm_compute. discriminate.
Qed.

(** ** C2: No fence marker in the query *)

(** C2, as the code has it.  The text cut out of a free-text response never
    holds a [```sql] marker; so the query of the web page's [generate_sql]
    never holds one; and a query of [write_query] holds none unless it is the
    [query] field of a structured answer, which is returned as the model gave
    it. *)
Theorem fallback_query_has_no_fence :
  (forall content, str_in fence (clean_query content) = false) /\
  (forall env question w q,
     fst (App.generate_sql env question w) = Returns (Some q) ->
     str_in fence q = false) /\
  (forall env state w u q,
     fst (Agent.write_query env state w) = Returns u ->
     u !! "query"%string = Some q ->
     str_in fence q = false \/
     exists h p, structured_query (structured_llm env h p) = Some q).
Proof.
  split; [exact clean_query_no_fence|]. split.
  - intros env question w q. run.
    destruct (db_table_info env (log w)); cbn [log memory fst]; [|discriminate].
    destruct (llm_chat env _ _); cbn [fst]; [|discriminate].
    intros [= <-]. apply clean_query_no_fence.
  - intros env state w u q. run.
    destruct (db_table_info env (log w)); [|discriminate]. cbn [log memory].
    destruct (state !! "question"%string); [|discriminate]. cbn [log memory].
    destruct (structured_llm env _ _) as [[d|]|e] eqn:Es; cbn [log memory].
    1: destruct (d !! "query"%string) as [q'|] eqn:Ed; cbn [log memory fst].
    1: { intros [= <-]. rewrite lookup_singleton_eq. intros [= <-].
         right. eexists. eexists. rewrite Es. exact Ed. }
    all: destruct (llm_chat env _ _); cbn [fst]; [|discriminate];
      intros [= <-]; rewrite lookup_singleton_eq; intros [= <-];
      left; apply clean_query_no_fence.
Qed.

(** C2 at work: the structured mode fails, the free-text answer is one
    fenced block, and the query is the text of the block. *)
Lemma fallback_query_has_no_fence_witness :
  fst (Agent.write_query env_fallback (asked_state sample_question) empty_world)
    = Returns {["query"%string := sample_sql]} /\
  str_in fence sample_sql = false.
Proof.
  assert (H : fst (Agent.write_query env_fallback (asked_state sample_question)
                     empty_world) = Returns {["query"%string := sample_sql]})
    by (vm_compute; reflexivity).
  split; [exact H|].
  destruct (proj2 (proj2 fallback_query_has_no_fence) env_fallback
              (asked_state sample_question) empty_world _ sample_sql H
              (lookup_singleton_eq _ _))
    as [Hq | (h & p & Hq)]; [exact Hq | discriminate Hq].
Defined.

(** C2 as stated fails in the structured mode: a [query] field that holds a
    fenced block is returned with its fence. *)
Lemma structured_query_keeps_fence :
  fst (Agent.write_query env_structured (asked_state sample_question) empty_world)
    = Returns {["query"%string := lit "```sql SELECT 1```"]} /\
  str_in fence (lit "```sql SELECT 1```") = true.
Proof. split; vm_compute; reflexivity. Qed.

(** ** C3: The executor reports failures *)

(** C3, as the code has it, for [execute_query] of [agent.py].  It returns
    a result for every state; when the database tool raises, the result is
    [Error executing query: ] followed by the message; and the run goes on to
    [generate_answer], whose prompt carries this text as the SQL result. *)
Theorem execute_query_never_raises (env : Env) (w : World) :
  (forall state,
     exists r, fst (Agent.execute_query env state w) = Returns {["result"%string := r]}) /\
  (forall state q e,
     state !! "query"%string = Some q ->
     sql_tool env (log w) q = Raises e ->
     fst (Agent.execute_query env state w) =
       Returns {["result"%string := lit "Error executing query: " ++ exn_message e]}) /\
  (forall g thread resumed cp question q e,
     Agent.builder g = Agent.graph_builder env ->
     Agent.name_in "generate_answer" (Agent.interrupt_before g) = false ->
     negb resumed && Agent.name_in "execute_query" (Agent.interrupt_before g) = false ->
     next_node cp = Some "execute_query"%string ->
     channels cp !! "question"%string = Some question ->
     channels cp !! "query"%string = Some q ->
     sql_tool env (log w) q = Raises e ->
     let err := lit "Error executing query: " ++ exn_message e in
     exists w' answer,
       Agent.run_steps Agent.recursion_limit g thread resumed cp Agent.print_step w
         = (Returns tt, w') /\
       log w' = log w ++ [EvTool q;
                          EvPrintStep "execute_query" {["result"%string := err]};
                          EvText (Agent.answer_prompt question q err);
                          EvPrintStep "generate_answer" {["answer"%string := answer]}]).
Proof.
  split; [|split].
  - intros state. apply execute_query_total.
  - intros state q e Hq He. rewrite (execute_query_run env state w q Hq), He. reflexivity.
  - intros g thread resumed cp question q e Hb Hg Hi Hn Hquestion Hq He err.
    destruct (run_from_execute env g thread resumed cp w question q Hb Hg Hi Hn Hquestion Hq)
      as (w' & Hrun & Hlog & _).
    rewrite He in Hlog. fold err in Hlog.
    eexists. eexists. split; [exact Hrun|].
    rewrite Hlog, <- app_assoc. reflexivity.
Qed.

(** C3 at work on the malformed query of the specification. *)
Lemma execute_query_never_raises_witness :
  fst (Agent.execute_query env_fallback {["query"%string := lit "SELEC * FORM x"]} empty_world)
    = Returns {["result"%string := lit "Error executing query: no such table: Employe"]} /\
  exists w',
    Agent.run_steps Agent.recursion_limit (Agent.graph env_fallback)
      (Some Agent.thread_id) true
      (paused_checkpoint sample_question {["query"%string := lit "SELEC * FORM x"]})
      Agent.print_step empty_world = (Returns tt, w') /\
    In (EvText (Agent.answer_prompt sample_question (lit "SELEC * FORM x")
                  (lit "Error executing query: no such table: Employe")))
       (log w').
Proof.
  split.
  - exact (proj1 (proj2 (execute_query_never_raises env_fallback empty_world))
             {["query"%string := lit "SELEC * FORM x"]} (lit "SELEC * FORM x")
             (PyException (lit "no such table: Employe"))
             (lookup_singleton_eq _ _) eq_refl).
  - assert (Hquestion :
      channels (paused_checkpoint sample_question
                  {["query"%string := lit "SELEC * FORM x"]}) !! "question"%string
      = Some sample_question) by (vm_compute; reflexivity).
    assert (Hquery :
      channels (paused_checkpoint sample_question
                  {["query"%string := lit "SELEC * FORM x"]}) !! "query"%string
      = Some (lit "SELEC * FORM x")) by (vm_compute; reflexivity).
    destruct (proj2 (proj2 (execute_query_never_raises env_fallback empty_world))
                (Agent.graph env_fallback) (Some Agent.thread_id) true
                (paused_checkpoint sample_question
                   {["query"%string := lit "SELEC * FORM x"]})
                sample_question (lit "SELEC * FORM x")
                (PyException (lit "no such table: Employe"))
                eq_refl eq_refl eq_refl eq_refl Hquestion Hquery eq_refl)
      as (w' & answer & Hrun & Hlog).
    exists w'. split; [exact Hrun|].
    rewrite Hlog. right. right. left. reflexivity.
Defined.

(** C3 as stated fails for [execute_sql] of [app.py]: when the database tool
    raises, the result is [None], not an error text, and the page stops: the
    tool was called once and the model is never asked for an answer. *)
Lemma execute_sql_gives_none :
  fst (App.execute_sql env_down (lit "SELEC * FORM x") empty_world) = Returns None /\
  calls is_tool (log (snd (App.page env_down sample_question empty_world))) = 1 /\
  calls is_text (log (snd (App.page env_down sample_question empty_world))) = 0.
Proof. repeat split; vm_compute; reflexivity. Qed.

(** ** C4: Structured mode first, free text as fallback *)

(** C4.  Once the prompt is built, the first call of [write_query] to the
    model is the structured one.  When it gives a [query] field, that field is
    returned and nothing more is called.  When it fails (the call raises, or
    the answer has no such field), the failure is printed, the free-text call
    is made exactly once, and [write_query] ends as that call does: with the
    query cut out of its text, or with its exception.  The free-text call is
    made if and only if the structured mode failed, and never twice. *)
Theorem write_query_structured_first
    (env : Env) (state : State) (w : World) (info question : str) :
  db_table_info env (log w) = Returns info ->
  state !! "question"%string = Some question ->
  let prompt := mkPrompt (db_dialect env) 10 info question in
  let asked := log w ++ [EvTableInfo] in
  let answer := structured_llm env asked prompt in
  let res := Agent.write_query env state w in
  exists new,
    log (snd res) = asked ++ EvStructured prompt :: new /\
    (forall q, structured_query answer = Some q ->
       fst res = Returns {["query"%string := q]} /\ new = []) /\
    (structured_query answer = None ->
       exists msg,
         new = [EvPrint msg; EvChat prompt] /\
         fst res =
           match llm_chat env (asked ++ [EvStructured prompt; EvPrint msg]) prompt with
           | Returns content => Returns {["query"%string := clean_query content]}
           | Raises e => Raises e
           end) /\
    (calls is_chat new = 1 <-> structured_query answer = None) /\
    calls is_chat new <= 1.
Proof.
  intros Hinfo Hq prompt asked answer res.
  subst res. run. rewrite Hinfo. cbn [log memory]. rewrite Hq. cbn [log memory].
  fold asked. fold prompt. fold answer.
  destruct answer as [[d|]|e] eqn:Ea; cbn [structured_query].
  1: destruct (d !! "query"%string) as [q|] eqn:Ed; cbn [fst snd log memory].
  1: { exists []. split; [reflexivity|]. split; [|split; [|split]].
       - intros q' [= <-]. split; reflexivity.
       - discriminate.
       - simpl. split; discriminate.
       - simpl. lia. }
  all: norm;
    match goal with
    | |- context [EvPrint ?m] => exists [EvPrint m; EvChat prompt]
    end;
    destruct (llm_chat env _ prompt) eqn:Ec; cbn [fst snd log];
    (split; [reflexivity|]); (split; [discriminate|]); split;
    [ intros _; eexists; split; [reflexivity|]; rewrite Ec; reflexivity
    | split; [split; reflexivity | simpl; lia]
    | intros _; eexists; split; [reflexivity|]; rewrite Ec; reflexivity
    | split; [split; reflexivity | simpl; lia] ].
Qed.

(** C4 at work: the structured mode raises, the free-text mode is called
    once and gives the query. *)
Lemma write_query_structured_first_witness :
  db_table_info env_fallback (log empty_world)
    = Returns (lit "CREATE TABLE Employee (EmployeeId INTEGER)") /\
  asked_state sample_question !! "question"%string = Some sample_question /\
  fst (Agent.write_query env_fallback (asked_state sample_question) empty_world)
    = Returns {["query"%string := sample_sql]} /\
  calls is_chat (log (snd (Agent.write_query env_fallback
                             (asked_state sample_question) empty_world))) = 1.
Proof.
  assert (H1 : db_table_info env_fallback (log empty_world)
               = Returns (lit "CREATE TABLE Employee (EmployeeId INTEGER)"))
    by reflexivity.
  assert (H2 : asked_state sample_question !! "question"%string = Some sample_question)
    by (vm_compute; reflexivity).
  split; [exact H1|]. split; [exact H2|].
  destruct (write_query_structured_first env_fallback (asked_state sample_question)
              empty_world _ _ H1 H2) as (new & Hlog & _ & Hfail & Hcount & _).
  destruct (Hfail eq_refl) as (msg & Hnew & Hres).
  split.
  - rewrite Hres. vm_compute. reflexivity.
  - rewrite Hlog, Hnew. reflexivity.
Defined.

(** ** C5: The answer stage reports failures *)

(** C5, as the code has it, for [generate_answer] of [agent.py].  On a
    state that holds a question, a query and a result (an error text is a
    result like any other), it returns an answer: the text of the model, or
    [Error generating answer: ] followed by the message when the model
    raises. *)
Theorem generate_answer_never_raises
    (env : Env) (state : State) (w : World) (question query result : str) :
  state !! "question"%string = Some question ->
  state !! "query"%string = Some query ->
  state !! "result"%string = Some result ->
  exists a,
    fst (Agent.generate_answer env state w) = Returns {["answer"%string := a]} /\
    (forall e,
       llm_text env (log w) (Agent.answer_prompt question query result) = Raises e ->
       a = lit "Error generating answer: " ++ exn_message e) /\
    (forall content,
       llm_text env (log w) (Agent.answer_prompt question query result) = Returns content ->
       a = content).
Proof.
  intros H1 H2 H3.
  rewrite (generate_answer_run env state w question query result H1 H2 H3).
  eexists. split; [reflexivity|].
  split; intros x Hx; rewrite Hx; reflexivity.
Qed.

(** C5 at work: the result is an error text and the model raises. *)
Lemma generate_answer_never_raises_witness :
  failed_state !! "question"%string = Some sample_question /\
  failed_state !! "query"%string = Some (lit "SELEC * FORM x") /\
  failed_state !! "result"%string
    = Some (lit "Error executing query: no such table: Employe") /\
  fst (Agent.generate_answer env_down failed_state empty_world)
    = Returns {["answer"%string := lit "Error generating answer: rate limit"]}.
Proof.
  assert (H1 : failed_state !! "question"%string = Some sample_question)
    by (vm_compute; reflexivity).
  assert (H2 : failed_state !! "query"%string = Some (lit "SELEC * FORM x"))
    by (vm_compute; reflexivity).
  assert (H3 : failed_state !! "result"%string
               = Some (lit "Error executing query: no such table: Employe"))
    by (vm_compute; reflexivity).
  repeat (split; [assumption|]).
  destruct (generate_answer_never_raises env_down failed_state empty_world
              _ _ _ H1 H2 H3) as (a & Ha & Hfail & _).
  rewrite Ha, (Hfail (PyException (lit "rate limit")) eq_refl). reflexivity.
Defined.

(** C5 as stated fails for [generate_answer] of [app.py]: when the model
    raises, the answer is [None]. *)
Lemma web_answer_gives_none :
  fst (App.generate_answer env_down sample_question sample_sql (lit "[(8,)]") empty_world)
    = Returns None.
Proof. vm_compute. reflexivity. Qed.

(** ** C6: Reasoning markers in the web answer *)

(** C6, as the code has it.  When the model answers with [content], the
    web page's answer is [out], trimmed, where [out] is [content] without its
    markers: [content] is cut into marker-free pieces around its [<think>]
    and [</think>] markers and [out] is the pieces put together.  There is
    one such [out], and it is [content] itself when [content] holds no
    marker. *)
Theorem web_answer_strips_tags
    (env : Env) (question query result content : str) (w : World) :
  llm_text env (log w) (App.answer_prompt question query result) = Returns content ->
  exists out,
    tags_removed content out /\
    (forall out', tags_removed content out' -> out' = out) /\
    (tag_free content -> out = content) /\
    fst (App.generate_answer env question query result w) = Returns (Some (strip out)).
Proof.
  intros Hc. exists (re_sub_empty App.think_tag content).
  split; [apply re_sub_removes_tags|].
  split; [intros out' H; apply tags_removed_unique; exact H|].
  split; [apply re_sub_tag_free|].
  rewrite web_answer_run, Hc. reflexivity.
Qed.

(** C6 at work on a reasoning trace. *)
Lemma web_answer_strips_tags_witness :
  llm_text env_thinking (log empty_world)
      (App.answer_prompt sample_question sample_sql (lit "[(8,)]"))
    = Returns (lit "<think>8 rows</think> Eight. ") /\
  fst (App.generate_answer env_thinking sample_question sample_sql (lit "[(8,)]")
         empty_world)
    = Returns (Some (lit "8 rows Eight.")).
Proof.
  assert (H : llm_text env_thinking (log empty_world)
                (App.answer_prompt sample_question sample_sql (lit "[(8,)]"))
              = Returns (lit "<think>8 rows</think> Eight. ")) by reflexivity.
  split; [exact H|].
  destruct (web_answer_strips_tags env_thinking sample_question sample_sql
              (lit "[(8,)]") _ empty_world H) as (out & Hrem & _ & _ & Hres).
  rewrite Hres. f_equal. f_equal.
  rewrite (tags_removed_unique _ _ Hrem). vm_compute. reflexivity.
Defined.

(** C6 as stated fails where a removal joins two pieces into a marker: from
    [<thi<think>nk>] the answer is [<think>]. *)
Lemma think_tag_rejoined :
  fst (App.generate_answer env_structured sample_question sample_sql (lit "[(8,)]")
         empty_world) = Returns (Some (lit "<think>")) /\
  str_in open_tag (lit "<think>") = true.
Proof. split; vm_compute; reflexivity. Qed.

(** ** C7: Each stage writes its own field *)

(** C7.  The update a stage returns holds one key: [query] for
    [write_query], [result] for [execute_query], [answer] for
    [generate_answer]; merging such an update leaves every other field as it
    was.  Along an approved run of the graph, the state starts with the
    question alone, holds question and query at the pause, then the result as
    well, then the answer as well, and a field that is set keeps its value. *)
Theorem stages_write_own_field (env : Env) :
  (forall state w u,
     fst (Agent.write_query env state w) = Returns u ->
     exists v, u = {["query"%string := v]}) /\
  (forall state w u,
     fst (Agent.execute_query env state w) = Returns u ->
     exists v, u = {["result"%string := v]}) /\
  (forall state w u,
     fst (Agent.generate_answer env state w) = Returns u ->
     exists v, u = {["answer"%string := v]}) /\
  (forall (state : State) (key k : string) (v : str),
     k <> key ->
     (({[key := v]} : Update) ∪ state) !! k = state !! k) /\
  (forall question w w1 q,
     memory w !! Agent.thread_id = None ->
     Agent.write_query env (asked_state question) (greeted question w)
       = (Returns {["query"%string := q]}, w1) ->
     str_eqb (str_lower (operator env
        (log w1 ++ [EvPrintStep "write_query" {["query"%string := q]}; shown_query q])))
        (lit "yes") = true ->
     exists cp1 cp2 cp3 r a,
       memory (snd (Agent.stream (Agent.graph env) (Some (asked_state question))
                      (Some Agent.thread_id) Agent.print_step (greeted question w)))
         !! Agent.thread_id = Some cp1 /\
       memory (snd (Agent.human_in_the_loop env question w)) =
         <[Agent.thread_id := cp3]>
           (<[Agent.thread_id := cp2]> (<[Agent.thread_id := cp1]> (memory w))) /\
       fields (asked_state question) = (Some question, None, None, None) /\
       fields (channels cp1) = (Some question, Some q, None, None) /\
       fields (channels cp2) = (Some question, Some q, Some r, None) /\
       fields (channels cp3) = (Some question, Some q, Some r, Some a)).
Proof.
  split; [intros state w u; apply write_query_update|].
  split.
  { intros state w u H. destruct (execute_query_total env state w) as [r Hr].
    rewrite Hr in H. injection H as <-. exists r. reflexivity. }
  split; [intros state w u; apply generate_answer_update|].
  split.
  { intros state key k v Hk. rewrite lookup_union_r; [reflexivity|].
    apply lookup_singleton_ne. congruence. }
  intros question w w1 q Hfresh Hw Hyes.
  rewrite (stream_first_returns env question w w1 _ Hfresh Hw).
  rewrite (human_in_the_loop_approved env question w w1 q Hfresh Hw Hyes).
  cbn [snd memory].
  eexists. eexists. eexists. eexists. eexists.
  split; [apply lookup_insert_eq|].
  split; [reflexivity|].
  repeat split; vm_compute; reflexivity.
Qed.

(** C7 at work on an approved run. *)
Lemma stages_write_own_field_witness :
  memory empty_world !! Agent.thread_id = None /\
  exists cp r a,
    memory (snd (Agent.human_in_the_loop env_structured sample_question empty_world))
      !! Agent.thread_id = Some cp /\
    fields (channels cp)
      = (Some sample_question, Some (lit "```sql SELECT 1```"), Some r, Some a).
Proof.
  assert (Hfresh : memory empty_world !! Agent.thread_id = None) by reflexivity.
  assert (Hw : Agent.write_query env_structured (asked_state sample_question)
                 (greeted sample_question empty_world)
               = (Returns {["query"%string := lit "```sql SELECT 1```"]},
                  snd (Agent.write_query env_structured (asked_state sample_question)
                         (greeted sample_question empty_world))))
    by (vm_compute; reflexivity).
  split; [exact Hfresh|].
  destruct (proj2 (proj2 (proj2 (proj2 (stages_write_own_field env_structured))))
              sample_question empty_world _ _ Hfresh Hw eq_refl)
    as (cp1 & cp2 & cp3 & r & a & _ & Hmem & _ & _ & _ & Hf3).
  exists cp3, r, a. split; [rewrite Hmem; apply lookup_insert_eq | exact Hf3].
Defined.

(** ** C8: The checkpoint at the pause *)




(** ** C9: Approval is the word yes *)

(** C9.  On a fresh thread, when [write_query] completes, the run goes on to
    execute the query if and only if the operator's reply, in lower case, is
    [yes]; on every other reply all that follows is the cancellation
    message.  [y], [approve] and [yes ] with a space behind are no
    approvals; [YES] is one. *)
Theorem approval_needs_yes
    (env : Env) (question : str) (w w1 : World) (u : Update) :
  memory w !! Agent.thread_id = None ->
  Agent.write_query env (asked_state question) (greeted question w) = (Returns u, w1) ->
  let paused :=
    snd (Agent.stream (Agent.graph env) (Some (asked_state question))
           (Some Agent.thread_id) Agent.print_step (greeted question w)) in
  (exists q rest,
     u = {["query"%string := q]} /\
     log (snd (Agent.human_in_the_loop env question w)) =
       log paused ++ shown_query q :: EvInput Agent.approval_prompt :: rest /\
     let reply := operator env (log paused ++ [shown_query q]) in
     (str_lower reply = lit "yes" <-> In (EvTool q) rest) /\
     (str_lower reply <> lit "yes" <-> rest = [EvPrint Agent.cancelled])) /\
  str_lower (lit "y") <> lit "yes" /\
  str_lower (lit "approve") <> lit "yes" /\
  str_lower (lit "yes ") <> lit "yes" /\
  str_lower (lit "YES") = lit "yes".
Proof.
  intros Hfresh Hw paused.
  split; [|repeat split; vm_compute; discriminate].
  destruct (write_query_update env (asked_state question) (greeted question w) u)
    as [q ->]; [rewrite Hw; reflexivity|].
  unfold paused. rewrite (stream_first_returns env question w w1 _ Hfresh Hw).
  cbn [snd log memory]. exists q.
  destruct (str_eqb (str_lower (operator env
              ((log w1 ++ [EvPrintStep "write_query" {["query"%string := q]}]) ++
               [shown_query q]))) (lit "yes")) eqn:E.
  - pose proof E as E'. rewrite <- app_assoc in E'.
    rewrite (human_in_the_loop_approved env question w w1 q Hfresh Hw E').
    cbn [snd log]. eexists. split; [reflexivity|].
    split; [rewrite <- !app_assoc; cbn [app]; reflexivity|].
    apply str_eqb_eq in E. cbn zeta. rewrite E. split.
    + split; [intros _; left; reflexivity | reflexivity].
    + split; [congruence | discriminate].
  - pose proof E as E'. rewrite <- app_assoc in E'.
    rewrite (human_in_the_loop_rejected env question w w1 q Hfresh Hw E').
    cbn [snd log]. eexists. split; [reflexivity|].
    split; [rewrite <- !app_assoc; cbn [app]; reflexivity|].
    assert (Hne : str_lower (operator env
              ((log w1 ++ [EvPrintStep "write_query" {["query"%string := q]}]) ++
               [shown_query q])) <> lit "yes").
    { intros H. apply str_eqb_eq in H. congruence. }
    cbn zeta. split.
    + split; [intros H; contradiction|].
      intros [H|[]]. discriminate H.
    + split; [reflexivity | intros _; exact Hne].
Qed.

(** C9 at work: the reply [yes ] cancels the run. *)
Lemma approval_needs_yes_witness :
  memory empty_world !! Agent.thread_id = None /\
  str_lower (operator env_down []) <> lit "yes" /\
  exists l,
    log (snd (Agent.human_in_the_loop env_down sample_question empty_world)) =
      l ++ [EvInput Agent.approval_prompt; EvPrint Agent.cancelled].
Proof.
  assert (Hfresh : memory empty_world !! Agent.thread_id = None) by reflexivity.
  assert (Hw : Agent.write_query env_down (asked_state sample_question)
                 (greeted sample_question empty_world)
               = (Returns {["query"%string := sample_sql]},
                  snd (Agent.write_query env_down (asked_state sample_question)
                         (greeted sample_question empty_world))))
    by (vm_compute; reflexivity).
  assert (Hno : str_lower (lit "yes ") <> lit "yes") by (vm_compute; discriminate).
  split; [exact Hfresh|]. split; [exact Hno|].
  destruct (approval_needs_yes env_down sample_question empty_world _ _ Hfresh Hw)
    as [(q & rest & Hu & Hlog & _ & Hrej) _].
  rewrite Hlog, (proj1 Hrej Hno).
  eexists (_ ++ [_]). rewrite <- app_assoc. reflexivity.
Defined.

(** ** C10: The gates of the web page *)

(** C10, as the code has it.  On the web page, for a question that is not
    empty: when
    [generate_sql] gives [None] or an empty text the page ends there and the
    database tool is not called; when [execute_sql] gives [None] or an empty
    text the page ends there and the model is not asked for an answer;
    [execute_sql] gives [None] when the tool raises, so nothing of a call
    that raised reaches the answer stage; a query that runs well with an
    empty result stops the page in the same way; and every text the tool
    returns that is not empty, whatever it says, is written on the page and
    put into the prompt of the answer. *)
Theorem page_gates (env : Env) (question : str) (w : World) :
  truthy question = true ->
  (forall o w1,
     App.generate_sql env question w = (Returns o, w1) ->
     truthy_opt o = false ->
     App.page env question w = (Returns tt, w1) /\
     calls is_tool (log w1) = calls is_tool (log w)) /\
  (forall sql w1 r w2,
     App.generate_sql env question w = (Returns (Some sql), w1) ->
     truthy sql = true ->
     App.execute_sql env sql
       (mkWorld (log w1 ++ [EvRender StSubheader (lit "Generated SQL Query");
                            EvRender StCode sql]) (memory w1)) = (Returns r, w2) ->
     truthy_opt r = false ->
     App.page env question w = (Returns tt, w2) /\
     calls is_text (log w2) = calls is_text (log w)) /\
  (forall sql w1 e,
     sql_tool env (log w1) sql = Raises e ->
     fst (App.execute_sql env sql w1) = Returns None) /\
  (forall sql w1,
     sql_tool env (log w1) sql = Returns [] ->
     fst (App.execute_sql env sql w1) = Returns (Some []) /\
     truthy_opt (Some []) = false) /\
  (forall sql w1 r,
     App.generate_sql env question w = (Returns (Some sql), w1) ->
     truthy sql = true ->
     sql_tool env (log w1 ++ [EvRender StSubheader (lit "Generated SQL Query");
                              EvRender StCode sql]) sql = Returns r ->
     truthy r = true ->
     exists rest,
       log (snd (App.page env question w)) =
         log w1 ++ [EvRender StSubheader (lit "Generated SQL Query");
                    EvRender StCode sql;
                    EvTool sql;
                    EvRender StSubheader (lit "Query Results");
                    EvRender StWrite r;
                    EvText (App.answer_prompt question sql r)] ++ rest).
Proof.
  intros Hq. split; [|split; [|split; [|split]]].
  - intros o w1 Hg Ho.
    destruct (generate_sql_events env question w) as (o' & new & Hg' & Htool & _).
    rewrite Hg' in Hg. injection Hg as -> <-.
    split.
    + unfold App.page. rewrite Hq. erewrite bind_returns by exact Hg'.
      unfold App.if_truthy. destruct o as [s|]; [|reflexivity].
      simpl in Ho. rewrite Ho. reflexivity.
    + cbn [log]. rewrite calls_app, Htool. lia.
  - intros sql w1 r w2 Hg Hs He Hr.
    destruct (generate_sql_events env question w) as (o' & new & Hg' & _ & Htext).
    rewrite Hg' in Hg. injection Hg as -> <-.
    split.
    + unfold App.page. rewrite Hq. erewrite bind_returns by exact Hg'.
      unfold App.if_truthy at 1. rewrite Hs.
      erewrite bind_returns by reflexivity.
      erewrite bind_returns by reflexivity.
      cbn [log memory] in He |- *. rewrite <- app_assoc in He |- *. cbn [app] in He |- *.
      unfold App.render at 1 2. unfold emit. cbn [log memory].
      rewrite <- !app_assoc. cbn [app].
      erewrite bind_returns by exact He.
      unfold App.if_truthy. destruct r as [s|]; [|reflexivity].
      simpl in Hr. rewrite Hr. reflexivity.
    + rewrite execute_sql_run in He. cbn [log memory] in He.
      destruct (sql_tool env _ sql); injection He as <- <-; cbn [log];
        rewrite !calls_app, Htext; simpl; lia.
  - intros sql w1 e He. rewrite execute_sql_run, He. reflexivity.
  - intros sql w1 He. rewrite execute_sql_run, He. split; reflexivity.
  - intros sql w1 r Hg Hs Ht Hr.
    unfold App.page. rewrite Hq. erewrite bind_returns by exact Hg.
    unfold App.if_truthy at 1. rewrite Hs.
    erewrite bind_returns by reflexivity.
    erewrite bind_returns by reflexivity.
    unfold App.render at 1 2. unfold emit. cbn [log memory].
    rewrite <- !app_assoc. cbn [app].
    erewrite bind_returns
      by (rewrite execute_sql_run; cbn [log memory]; rewrite Ht; reflexivity).
    unfold App.if_truthy at 1. rewrite Hr.
    erewrite bind_returns by reflexivity.
    erewrite bind_returns by reflexivity.
    unfold App.render at 1 2. unfold emit. cbn [log memory].
    rewrite <- !app_assoc. cbn [app].
    unfold bind at 1. rewrite web_answer_run. cbn [log memory].
    destruct (llm_text env _ _) as [content|e]; cbn [log memory].
    + unfold App.if_truthy. destruct (truthy (strip _)); cbn [snd log];
        unfold bind, App.render, emit; cbn [snd log memory];
        rewrite <- ?app_assoc; cbn [app]; eexists; reflexivity.
    + cbn [App.if_truthy snd log]. unfold ret. cbn [snd log].
      rewrite <- ?app_assoc. cbn [app]. eexists. reflexivity.
Qed.

(** C10 at work: the tool raises and the page stops before the answer. *)
Lemma page_gates_witness :
  truthy sample_question = true /\
  App.page env_down sample_question empty_world =
    (Returns tt,
     snd (App.execute_sql env_down sample_sql
            (mkWorld (log (snd (App.generate_sql env_down sample_question empty_world)) ++
                      [EvRender StSubheader (lit "Generated SQL Query");
                       EvRender StCode sample_sql]) ∅))) /\
  calls is_text (log (snd (App.page env_down sample_question empty_world))) = 0.
Proof.
  assert (Hq : truthy sample_question = true) by reflexivity.
  assert (Hg : App.generate_sql env_down sample_question empty_world
               = (Returns (Some sample_sql),
                  snd (App.generate_sql env_down sample_question empty_world)))
    by (vm_compute; reflexivity).
  assert (He : App.execute_sql env_down sample_sql
                 (mkWorld (log (snd (App.generate_sql env_down sample_question empty_world)) ++
                           [EvRender StSubheader (lit "Generated SQL Query");
                            EvRender StCode sample_sql])
                    (memory (snd (App.generate_sql env_down sample_question empty_world))))
               = (Returns None,
                  snd (App.execute_sql env_down sample_sql
                    (mkWorld (log (snd (App.generate_sql env_down sample_question empty_world)) ++
                              [EvRender StSubheader (lit "Generated SQL Query");
                               EvRender StCode sample_sql]) ∅))))
    by (vm_compute; reflexivity).
  split; [exact Hq|].
  destruct (proj1 (proj2 (page_gates env_down sample_question empty_world Hq))
              sample_sql _ None _ Hg eq_refl He eq_refl) as [Hpage Htext].
  split; [exact Hpage|]. rewrite Hpage. cbn [snd]. rewrite Htext. reflexivity.
Defined.

(** C10 as stated fails when the database tool reports an error in the text
    it returns: [execute_sql] gives that text, the text is not empty, and
    the page asks the model for an answer with the error text as the
    results of the query. *)
Lemma returned_error_reaches_answer :
  fst (App.execute_sql env_error_text sample_sql empty_world)
    = Returns (Some returned_error) /\
  truthy returned_error = true /\
  calls is_text (log (snd (App.page env_error_text sample_question empty_world))) = 1 /\
  In (EvText (App.answer_prompt sample_question sample_sql returned_error))
     (log (snd (App.page env_error_text sample_question empty_world))).
Proof.
  split; [reflexivity|]. split; [reflexivity|]. split; [vm_compute; reflexivity|].
  vm_compute. tauto.
Qed.

(** * Beyond the claims

    What the two scripts do around the places the claims name: the query
    once it is cut out, the stages on states they do not expect, the graph
    run without a pause, the approval flow and the page on every path. *)

(** ** The query, once cut out *)

Lemma lstrip_head (s : str) (c : ascii) (r : str) :
  lstrip s = c :: r -> isspace c = false.
Proof.
  induction s as [|a s IH]; simpl; [discriminate|].
  destruct (isspace a) eqn:E; [exact IH|].
  intros [= <- _]. exact E.
Qed.

Lemma lstrip_fixed (s : str) :
  (forall c r, s = c :: r -> isspace c = false) -> lstrip s = s.
Proof.
  destruct s as [|c r]; [reflexivity|].
  intros H. simpl. rewrite (H c r eq_refl). reflexivity.
Qed.

Lemma lstrip_idempotent (s : str) : lstrip (lstrip s) = lstrip s.
Proof. apply lstrip_fixed. intros c r. apply lstrip_head. Qed.

Lemma rstrip_idempotent (s : str) : rstrip (rstrip s) = rstrip s.
Proof. unfold rstrip. rewrite rev_involutive, lstrip_idempotent. reflexivity. Qed.

Lemma strip_head (s : str) (c : ascii) (r : str) :
  strip s = c :: r -> isspace c = false.
Proof.
  unfold strip. intros H.
  destruct (rstrip_prefix (lstrip s)) as [b Hb].
  rewrite H in Hb. exact (lstrip_head s c (r ++ b) Hb).
Qed.

Lemma strip_last (s : str) (c : ascii) (r : str) :
  rev (strip s) = c :: r -> isspace c = false.
Proof.
  unfold strip, rstrip. rewrite rev_involutive. apply lstrip_head.
Qed.

Lemma strip_idempotent (s : str) : strip (strip s) = strip s.
Proof.
  unfold strip at 1.
  rewrite (lstrip_fixed (strip s)) by (intros c r; apply strip_head).
  unfold strip. apply rstrip_idempotent.
Qed.

Lemma clean_query_is_strip (content : str) : exists y, clean_query content = strip y.
Proof.
  destruct (clean_query_cases content) as [[_ H] | (pre & rest & _ & _ & H)];
    eexists; exact H.
Qed.

(** X1.  The query cut out of a response is trimmed: it neither starts nor ends
    with a whitespace character; and cutting it again changes nothing. *)
Theorem clean_query_idempotent (content : str) :
  clean_query (clean_query content) = clean_query content /\
  (forall c r, clean_query content = c :: r -> isspace c = false) /\
  (forall c r, rev (clean_query content) = c :: r -> isspace c = false).
Proof.
  destruct (clean_query_is_strip content) as [y Hy].
  split; [|split].
  - unfold clean_query at 1. rewrite clean_query_no_fence.
    rewrite Hy. apply strip_idempotent.
  - rewrite Hy. apply strip_head.
  - rewrite Hy. apply strip_last.
Qed.

(** X2.  The query is a part of the response: the response is some text, the
    query, and some more text.  Nothing is added or reordered. *)
Theorem clean_query_is_part (content : str) :
  exists a b, content = a ++ clean_query content ++ b.
Proof.
  destruct (clean_query_cases content) as [[_ Hq] | (pre & rest & Hc & _ & Hq)];
    rewrite Hq.
  - apply strip_part.
  - destruct (before_ticks rest) as [[_ Hf] | (body & post & Hb & _ & Hf)];
      rewrite Hf.
    + destruct (strip_part rest) as (a & b & Hs).
      exists (pre ++ fence ++ a), b.
      rewrite Hc. rewrite Hs at 1. rewrite <- !app_assoc. reflexivity.
    + destruct (strip_part body) as (a & b & Hs).
      exists (pre ++ fence ++ a), (b ++ ticks ++ post).
      rewrite Hc, Hb. rewrite Hs at 1. rewrite <- !app_assoc. reflexivity.
Qed.

(** X3.  When nothing behind the [```sql] marker holds another one, the query is
    the text between that marker and the first [```] behind it, trimmed,
    whatever stands before the marker and behind the block. *)
Theorem clean_query_single_block (pre body post : str) :
  str_in fence (body ++ ticks ++ post) = false ->
  no_match_before ticks (length body) (body ++ ticks ++ post) = true ->
  clean_query (pre ++ fence ++ body ++ ticks ++ post) = strip body.
Proof.
  intros Hf Hn. unfold clean_query.
  rewrite str_in_app_r.
  rewrite (str_split_last fence fence_nonempty fence_border_free) by exact Hf.
  unfold str_split. rewrite (split_go_first ticks ticks_nonempty [] body post Hn).
  reflexivity.
Qed.

(** X3 at work: a chatty response with one fenced block. *)
Lemma clean_query_single_block_witness :
  str_in fence (nl ++ sample_sql ++ nl ++ ticks ++ lit " Hope this helps.") = false /\
  clean_query (lit "Sure: " ++ fence ++ (nl ++ sample_sql ++ nl) ++ ticks
               ++ lit " Hope this helps.") = sample_sql.
Proof.
  assert (H1 : str_in fence ((nl ++ sample_sql ++ nl) ++ ticks ++ lit " Hope this helps.")
               = false) by reflexivity.
  split; [exact H1|].
  rewrite (clean_query_single_block (lit "Sure: ") (nl ++ sample_sql ++ nl)
             (lit " Hope this helps.") H1 eq_refl).
  reflexivity.
Defined.

(** ** Markers and replies *)

(** X4.  The web answer keeps the reasoning text: from a response
    [<think>trace</think>tail] with no further marker, only the two markers
    go, and the answer is [trace] and [tail] together, trimmed. *)
Theorem web_answer_keeps_trace
    (env : Env) (question query result trace tail : str) (w : World) :
  tag_free trace -> tag_free tail ->
  llm_text env (log w) (App.answer_prompt question query result)
    = Returns (open_tag ++ trace ++ close_tag ++ tail) ->
  fst (App.generate_answer env question query result w)
    = Returns (Some (strip (trace ++ tail))).
Proof.
  intros Ht Ha Hc. rewrite web_answer_run, Hc. cbn [fst].
  rewrite (re_sub_at_tag open_tag) by (left; reflexivity).
  rewrite (re_sub_before_tag trace close_tag tail Ht) by (right; reflexivity).
  rewrite (re_sub_tag_free tail Ha). reflexivity.
Qed.

(** X4 at work: a reasoning trace before the answer. *)
Lemma web_answer_keeps_trace_witness :
  tag_free (lit "8 rows") /\ tag_free (lit " Eight. ") /\
  fst (App.generate_answer env_thinking sample_question sample_sql (lit "[(8,)]")
         empty_world) = Returns (Some (lit "8 rows Eight.")).
Proof.
  assert (H1 : tag_free (lit "8 rows")) by (split; reflexivity).
  assert (H2 : tag_free (lit " Eight. ")) by (split; reflexivity).
  split; [exact H1|]. split; [exact H2|].
  rewrite (web_answer_keeps_trace env_thinking sample_question sample_sql (lit "[(8,)]")
             (lit "8 rows") (lit " Eight. ") empty_world H1 H2 eq_refl).
  reflexivity.
Defined.

(** X5.  The replies that pass the test [input(...).lower() == "yes"] are the
    eight spellings of [yes] in upper and lower case, and no other text. *)
Theorem approval_spellings (reply : str) :
  str_eqb (str_lower reply) (lit "yes") = true <->
  In reply [lit "yes"; lit "yeS"; lit "yEs"; lit "yES";
            lit "Yes"; lit "YeS"; lit "YEs"; lit "YES"].
Proof.
  rewrite str_eqb_eq, str_lower_yes. split.
  - intros (a & b & c & -> & [-> | ->] & [-> | ->] & [-> | ->]); simpl; tauto.
  - intros H. simpl in H.
    repeat (destruct H as [<- | H];
            [eexists; eexists; eexists; split; [reflexivity|]; tauto|]).
    contradiction.
Qed.

(** ** The stages at their edges *)

(** X6.  [execute_query] calls the database tool once, with the query of the
    state as it is; on a state without a query it calls nothing and gives the
    result [Error executing query: 'query'], the text of the [KeyError]. *)
Theorem execute_query_calls (env : Env) (state : State) (w : World) :
  (forall q,
     state !! "query"%string = Some q ->
     snd (Agent.execute_query env state w) = mkWorld (log w ++ [EvTool q]) (memory w)) /\
  (state !! "query"%string = None ->
   Agent.execute_query env state w =
     (Returns {["result"%string := lit "Error executing query: 'query'"]}, w)).
Proof.
  split.
  - intros q Hq. rewrite (execute_query_run env state w q Hq). reflexivity.
  - intros Hq. run. rewrite Hq. reflexivity.
Qed.

(** X6 at work: a state that holds the question only. *)
Lemma execute_query_calls_witness :
  asked_state sample_question !! "query"%string = None /\
  Agent.execute_query env_structured (asked_state sample_question) empty_world =
    (Returns {["result"%string := lit "Error executing query: 'query'"]}, empty_world).
Proof.
  assert (H : asked_state sample_question !! "query"%string = None)
    by (vm_compute; reflexivity).
  split; [exact H|].
  exact (proj2 (execute_query_calls env_structured (asked_state sample_question)
                  empty_world) H).
Defined.

(** X7.  [generate_answer] of [agent.py] builds its prompt before the [try]: on a
    state that lacks the question, the query or the result it raises the
    [KeyError] of the first key that is missing, and the model is not
    called. *)
Theorem generate_answer_missing_key (env : Env) (state : State) (w : World) :
  (state !! "question"%string = None ->
   Agent.generate_answer env state w = (Raises (PyException (lit "'question'")), w)) /\
  (forall question,
     state !! "question"%string = Some question ->
     state !! "query"%string = None ->
     Agent.generate_answer env state w = (Raises (PyException (lit "'query'")), w)) /\
  (forall question query,
     state !! "question"%string = Some question ->
     state !! "query"%string = Some query ->
     state !! "result"%string = None ->
     Agent.generate_answer env state w = (Raises (PyException (lit "'result'")), w)).
Proof.
  split; [|split].
  - intros H. run. rewrite H. reflexivity.
  - intros question H1 H2. run. rewrite H1. cbn. rewrite H2. reflexivity.
  - intros question query H1 H2 H3. run. rewrite H1. cbn. rewrite H2. cbn.
    rewrite H3. reflexivity.
Qed.

(** X7 at work: a state that holds the question only. *)
Lemma generate_answer_missing_key_witness :
  asked_state sample_question !! "question"%string = Some sample_question /\
  asked_state sample_question !! "query"%string = None /\
  Agent.generate_answer env_structured (asked_state sample_question) empty_world =
    (Raises (PyException (lit "'query'")), empty_world).
Proof.
  assert (H1 : asked_state sample_question !! "question"%string = Some sample_question)
    by (vm_compute; reflexivity).
  assert (H2 : asked_state sample_question !! "query"%string = None)
    by (vm_compute; reflexivity).
  split; [exact H1|]. split; [exact H2|].
  exact (proj1 (proj2 (generate_answer_missing_key env_structured
                         (asked_state sample_question) empty_world))
           sample_question H1 H2).
Defined.

(** X8.  [write_query] builds its prompt before the [try]: a failure of the schema
    read, and a state without a question, both leave [write_query] as an
    exception, after the schema read and before any call to the model. *)
Theorem write_query_prompt_failures (env : Env) (state : State) (w : World) :
  (forall e,
     db_table_info env (log w) = Raises e ->
     Agent.write_query env state w =
       (Raises e, mkWorld (log w ++ [EvTableInfo]) (memory w))) /\
  (forall info,
     db_table_info env (log w) = Returns info ->
     state !! "question"%string = None ->
     Agent.write_query env state w =
       (Raises (PyException (lit "'question'")),
        mkWorld (log w ++ [EvTableInfo]) (memory w))).
Proof.
  split.
  - intros e H. run. rewrite H. reflexivity.
  - intros info H Hq. run. rewrite H. cbn. rewrite Hq. reflexivity.
Qed.

(** X8 at work: the empty state. *)
Lemma write_query_prompt_failures_witness :
  db_table_info env_fallback (log empty_world)
    = Returns (lit "CREATE TABLE Employee (EmployeeId INTEGER)") /\
  (∅ : State) !! "question"%string = None /\
  Agent.write_query env_fallback ∅ empty_world =
    (Raises (PyException (lit "'question'")), mkWorld [EvTableInfo] ∅).
Proof.
  assert (H1 : db_table_info env_fallback (log empty_world)
               = Returns (lit "CREATE TABLE Employee (EmployeeId INTEGER)"))
    by reflexivity.
  assert (H2 : (∅ : State) !! "question"%string = None) by reflexivity.
  split; [exact H1|]. split; [exact H2|].
  exact (proj2 (write_query_prompt_failures env_fallback ∅ empty_world) _ H1 H2).
Defined.

(** X9.  A stage reads only its inputs: [write_query] the question,
    [execute_query] the query, [generate_answer] question, query and result.
    Two states that agree on them give the same run. *)
Theorem stages_read_their_inputs (env : Env) (state state' : State) (w : World) :
  (state !! "question"%string = state' !! "question"%string ->
   Agent.write_query env state w = Agent.write_query env state' w) /\
  (state !! "query"%string = state' !! "query"%string ->
   Agent.execute_query env state w = Agent.execute_query env state' w) /\
  (state !! "question"%string = state' !! "question"%string ->
   state !! "query"%string = state' !! "query"%string ->
   state !! "result"%string = state' !! "result"%string ->
   Agent.generate_answer env state w = Agent.generate_answer env state' w).
Proof.
  split; [|split].
  - intros H. run. rewrite H. reflexivity.
  - intros H. run. rewrite H. reflexivity.
  - intros H1 H2 H3. run. rewrite H1, H2, H3. reflexivity.
Qed.

(** X9 at work: two states with the same query. *)
Lemma stages_read_their_inputs_witness :
  failed_state !! "query"%string
    = ({["query"%string := lit "SELEC * FORM x"]} : State) !! "query"%string /\
  Agent.execute_query env_fallback failed_state empty_world =
    Agent.execute_query env_fallback {["query"%string := lit "SELEC * FORM x"]} empty_world.
Proof.
  assert (H : failed_state !! "query"%string
              = ({["query"%string := lit "SELEC * FORM x"]} : State) !! "query"%string)
    by (vm_compute; reflexivity).
  split; [exact H|].
  exact (proj1 (proj2 (stages_read_their_inputs env_fallback failed_state
                         {["query"%string := lit "SELEC * FORM x"]} empty_world)) H).
Defined.

Lemma execute_query_log_only (env : Env) (state : State) (l : list Event)
    (m m' : gmap string Checkpoint) :
  Agent.execute_query env state (mkWorld l m') =
    (fst (Agent.execute_query env state (mkWorld l m)),
     mkWorld (log (snd (Agent.execute_query env state (mkWorld l m)))) m').
Proof.
  run. destruct (state !! "query"%string); cbn [log memory]; [|reflexivity].
  destruct (sql_tool env l _); reflexivity.
Qed.

Lemma generate_answer_log_only (env : Env) (state : State) (l : list Event)
    (m m' : gmap string Checkpoint) :
  Agent.generate_answer env state (mkWorld l m') =
    (fst (Agent.generate_answer env state (mkWorld l m)),
     mkWorld (log (snd (Agent.generate_answer env state (mkWorld l m)))) m').
Proof.
  run. destruct (state !! "question"%string); [|reflexivity]. cbn [fst snd log memory].
  destruct (state !! "query"%string); [|reflexivity]. cbn [fst snd log memory].
  destruct (state !! "result"%string); [|reflexivity]. cbn [fst snd log memory].
  destruct (llm_text env l _); reflexivity.
Qed.

(** X10.  No stage reads or writes the checkpoints: with other checkpoints in the
    store a stage returns the same, logs the same and leaves the store as it
    found it. *)
Theorem stages_leave_checkpoints (env : Env) (state : State) (l : list Event)
    (m m' : gmap string Checkpoint) :
  let same (stage : Env -> State -> M Update) :=
    fst (stage env state (mkWorld l m')) = fst (stage env state (mkWorld l m)) /\
    log (snd (stage env state (mkWorld l m'))) = log (snd (stage env state (mkWorld l m))) /\
    memory (snd (stage env state (mkWorld l m'))) = m' in
  same Agent.write_query /\ same Agent.execute_query /\ same Agent.generate_answer.
Proof.
  cbn zeta. split; [|split].
  - rewrite (write_query_log_only env state l m m'). repeat split.
  - rewrite (execute_query_log_only env state l m m'). repeat split.
  - rewrite (generate_answer_log_only env state l m m'). repeat split.
Qed.

(** ** The graph without a pause *)

(** The same run with any bound of two steps or more. *)
Lemma run_from_execute_fuel (fuel : nat) (env : Env) (g : Agent.CompiledGraph)
    (thread : option string) (resumed : bool) (cp : Checkpoint) (w : World) (question q : str) :
  Agent.builder g = Agent.graph_builder env ->
  Agent.name_in "generate_answer" (Agent.interrupt_before g) = false ->
  negb resumed && Agent.name_in "execute_query" (Agent.interrupt_before g) = false ->
  next_node cp = Some "execute_query"%string ->
  channels cp !! "question"%string = Some question ->
  channels cp !! "query"%string = Some q ->
  let result :=
    match sql_tool env (log w) q with
    | Returns r => r
    | Raises e => lit "Error executing query: " ++ exn_message e
    end in
  let u2 : Update := {["result"%string := result]} in
  let cp2 := mkCheckpoint (u2 ∪ channels cp) (Some "generate_answer"%string)
               (<["execute_query"%string := u2]> (values cp)) in
  let prompt := Agent.answer_prompt question q result in
  let h3 := log w ++ [EvTool q; EvPrintStep "execute_query" u2] in
  let answer :=
    match llm_text env h3 prompt with
    | Returns content => content
    | Raises e => lit "Error generating answer: " ++ exn_message e
    end in
  let u3 : Update := {["answer"%string := answer]} in
  let cp3 := mkCheckpoint (u3 ∪ channels cp2) None
               (<["generate_answer"%string := u3]> (values cp2)) in
  exists w',
    Agent.run_steps (S (S fuel)) g thread resumed cp Agent.print_step w
      = (Returns tt, w') /\
    log w' = h3 ++ [EvText prompt; EvPrintStep "generate_answer" u3] /\
    memory w' = memory (snd (Agent.save g thread cp3 (snd (Agent.save g thread cp2 w)))).
Proof.
  intros Hb Hg He Hn Hquestion Hq result u2 cp2 prompt h3 answer u3 cp3.
  rewrite (run_steps_step _ g thread resumed cp _ "execute_query" (Agent.execute_query env))
    by (assumption || (rewrite Hb; reflexivity)).
  unfold bind at 1. rewrite (execute_query_run env _ w q Hq).
  rewrite Hb. change (Agent.successor "execute_query" (Agent.edges (Agent.graph_builder env)))
    with (Some "generate_answer"%string).
  fold result. fold u2. fold cp2.
  unfold bind at 1.
  destruct (save_returns g thread cp2 (mkWorld (log w ++ [EvTool q]) (memory w)))
    as [Hr2 Hl2].
  assert (Hm2 : memory (snd (Agent.save g thread cp2
                   (mkWorld (log w ++ [EvTool q]) (memory w)))) =
                memory (snd (Agent.save g thread cp2 w))).
  { unfold Agent.save. destruct (Agent.checkpointer g), thread; reflexivity. }
  destruct (Agent.save g thread cp2 _) as [r2 w2].
  cbn [fst snd log] in Hr2, Hl2, Hm2. subst r2.
  unfold bind at 1. unfold Agent.print_step at 1, emit.
  rewrite (run_steps_step _ g thread false cp2 _ "generate_answer" (Agent.generate_answer env))
    by (reflexivity || assumption || (rewrite Hb; reflexivity)).
  unfold bind at 1.
  rewrite (generate_answer_run env (channels cp2) _ question q result);
    [| | |].
  2: { unfold cp2. cbn [channels]. rewrite lookup_union_r; [exact Hquestion|].
       unfold u2. apply lookup_singleton_ne. discriminate. }
  2: { unfold cp2. cbn [channels]. rewrite lookup_union_r; [exact Hq|].
       unfold u2. apply lookup_singleton_ne. discriminate. }
  2: { unfold cp2. cbn [channels]. apply lookup_union_Some_l.
       unfold u2. apply lookup_singleton_eq. }
  cbn [log memory]. rewrite Hl2. rewrite <- app_assoc. cbn [app].
  fold prompt. fold h3. fold answer. fold u3.
  rewrite Hb. change (Agent.successor "generate_answer" (Agent.edges (Agent.graph_builder env)))
    with (@None string).
  fold cp3.
  unfold bind at 1.
  match goal with
  | |- context [Agent.save g thread cp3 ?x] =>
      destruct (save_returns g thread cp3 x) as [Hr3 Hl3];
      assert (Hm3 : memory (snd (Agent.save g thread cp3 x)) =
                    memory (snd (Agent.save g thread cp3 w2)))
        by (unfold Agent.save; destruct (Agent.checkpointer g), thread; reflexivity)
  end.
  destruct (Agent.save g thread cp3 _) as [r3 w3].
  cbn [fst snd log] in Hr3, Hl3, Hm3. subst r3.
  unfold bind at 1. unfold Agent.print_step at 1, emit.
  rewrite run_steps_end by reflexivity.
  eexists. split; [reflexivity|]. cbn [log memory]. rewrite Hl3, Hm3.
  rewrite <- app_assoc. split; [reflexivity|].
  unfold Agent.save. unfold Agent.save in Hm2.
  destruct (Agent.checkpointer g), thread; cbn [snd memory] in *;
    rewrite ?Hm2; reflexivity.
Qed.

Lemma write_query_events (env : Env) (state : State) (w : World) :
  exists new,
    snd (Agent.write_query env state w) = mkWorld (log w ++ new) (memory w) /\
    calls is_tool new = 0 /\ calls is_text new = 0 /\ calls is_input new = 0 /\
    calls is_chat new <= 1.
Proof.
  run. destruct (db_table_info env (log w)); cbn [log memory snd];
    [|eexists; split; [reflexivity|]; repeat split; simpl; lia].
  destruct (state !! "question"%string); cbn [log memory snd];
    [|eexists; split; [reflexivity|]; repeat split; simpl; lia].
  destruct (structured_llm env _ _) as [[d|]|e]; cbn [log memory snd].
  1: destruct (d !! "query"%string); cbn [log memory snd];
     [rewrite <- app_assoc; eexists; split; [reflexivity|]; repeat split; simpl; lia|].
  all: destruct (llm_chat env _ _); cbn [log memory snd]; rewrite <- !app_assoc;
    eexists; (split; [reflexivity|]); repeat split; simpl; lia.
Qed.

Lemma stream_plain (env : Env) (inp : State) (w : World) :
  Agent.stream (Agent.plain_graph env) (Some inp) None Agent.print_step w =
    Agent.run_steps Agent.recursion_limit (Agent.plain_graph env) None false
      (mkCheckpoint inp (Some "write_query"%string) ∅) Agent.print_step w.
Proof.
  unfold Agent.stream.
  erewrite bind_returns by reflexivity. cbn beta iota zeta.
  erewrite bind_returns by reflexivity. reflexivity.
Qed.

(** X11.  [run_query] runs the graph compiled without checkpointer and without
    interrupt: once [write_query] completes, the three stages run in their
    order in one go and each step is printed; the query executed is the one
    [write_query] gave; the operator is not asked and no checkpoint is
    stored. *)
Theorem run_query_runs_through (env : Env) (question : str) (w w1 : World) (u : Update) :
  Agent.write_query env (asked_state question)
      (mkWorld (log w ++ [EvPrint (processing question)]) (memory w))
    = (Returns u, w1) ->
  exists q result answer,
    u = {["query"%string := q]} /\
    Agent.run_query env question w =
      (Returns tt,
       mkWorld (log w1 ++ [EvPrintStep "write_query" u;
                           EvTool q;
                           EvPrintStep "execute_query" {["result"%string := result]};
                           EvText (Agent.answer_prompt question q result);
                           EvPrintStep "generate_answer" {["answer"%string := answer]}])
         (memory w)).
Proof.
  intros Hw.
  destruct (write_query_update env _ _ u ltac:(rewrite Hw; reflexivity)) as [q ->].
  pose proof (write_query_memory env (asked_state question)
                (mkWorld (log w ++ [EvPrint (processing question)]) (memory w))) as Hm.
  rewrite Hw in Hm. cbn [snd memory] in Hm.
  unfold Agent.run_query.
  erewrite bind_returns by apply print_run.
  fold (asked_state question). fold (processing question).
  rewrite stream_plain. unfold Agent.recursion_limit.
  rewrite (run_steps_step _ _ _ false _ _ "write_query" (Agent.write_query env))
    by reflexivity.
  cbn [channels values].
  erewrite bind_returns by exact Hw. cbn beta iota zeta.
  erewrite bind_returns by reflexivity.
  erewrite bind_returns by apply print_step_run.
  destruct (run_from_execute_fuel 22 env (Agent.plain_graph env) None false
              (mkCheckpoint ({["query"%string := q]} ∪ asked_state question)
                 (Some "execute_query"%string)
                 (<["write_query"%string := {["query"%string := q]}]> ∅))
              (mkWorld (log w1 ++ [EvPrintStep "write_query" {["query"%string := q]}])
                 (memory w1))
              question q)
    as (w' & Hrun & Hlog & Hmem); try reflexivity; try (vm_compute; reflexivity).
  cbn [log memory] in Hrun, Hlog, Hmem.
  change (Agent.successor "write_query" (Agent.edges (Agent.builder (Agent.plain_graph env))))
    with (Some "execute_query"%string).
  rewrite Hrun. destruct w' as [l' m']. cbn [log memory] in Hlog, Hmem.
  cbn in Hmem. subst l' m'.
  eexists q, _, _. split; [reflexivity|].
  rewrite Hm, <- !app_assoc. reflexivity.
Qed.

(** X11 at work: a run with every collaborator answering. *)
Lemma run_query_runs_through_witness :
  exists w',
    Agent.run_query env_structured sample_question empty_world = (Returns tt, w') /\
    calls is_tool (log w') = 1 /\ calls is_input (log w') = 0 /\ memory w' = ∅.
Proof.
  assert (Hw : Agent.write_query env_structured (asked_state sample_question)
                 (mkWorld (log empty_world ++ [EvPrint (processing sample_question)])
                    (memory empty_world))
               = (Returns {["query"%string := lit "```sql SELECT 1```"]},
                  snd (Agent.write_query env_structured (asked_state sample_question)
                         (mkWorld (log empty_world ++ [EvPrint (processing sample_question)])
                            (memory empty_world)))))
    by (vm_compute; reflexivity).
  destruct (run_query_runs_through env_structured sample_question empty_world _ _ Hw)
    as (q & result & answer & Hu & Hrun).
  eexists. split; [exact Hrun|]. cbn [log memory].
  rewrite !calls_app. repeat split.
Defined.

(** X12.  [run_query] has no handler: an exception of [write_query] leaves
    [run_query] as it is, and nothing more is run. *)
Theorem run_query_propagates (env : Env) (question : str) (w w1 : World) (e : exn) :
  Agent.write_query env (asked_state question)
      (mkWorld (log w ++ [EvPrint (processing question)]) (memory w))
    = (Raises e, w1) ->
  Agent.run_query env question w = (Raises e, w1).
Proof.
  intros Hw. unfold Agent.run_query.
  erewrite bind_returns by apply print_run.
  fold (asked_state question). fold (processing question).
  rewrite stream_plain. unfold Agent.recursion_limit.
  rewrite (run_steps_step _ _ _ false _ _ "write_query" (Agent.write_query env))
    by reflexivity.
  cbn [channels values].
  erewrite bind_raises by exact Hw. reflexivity.
Qed.

(** X12 at work: both modes of the model fail. *)
Lemma run_query_propagates_witness :
  fst (Agent.run_query env_silent sample_question empty_world)
    = Raises (PyException (lit "rate limit")).
Proof.
  assert (Hw : Agent.write_query env_silent (asked_state sample_question)
                 (mkWorld (log empty_world ++ [EvPrint (processing sample_question)])
                    (memory empty_world))
               = (Raises (PyException (lit "rate limit")),
                  snd (Agent.write_query env_silent (asked_state sample_question)
                         (mkWorld (log empty_world ++ [EvPrint (processing sample_question)])
                            (memory empty_world)))))
    by (vm_compute; reflexivity).
  rewrite (run_query_propagates env_silent sample_question empty_world _ _ Hw).
  reflexivity.
Defined.

(** ** The approval flow, whatever happens *)

Lemma human_in_the_loop_stage_fails (env : Env) (question : str) (w w1 : World) (e : exn) :
  memory w !! Agent.thread_id = None ->
  Agent.write_query env (asked_state question) (greeted question w) = (Raises e, w1) ->
  Agent.human_in_the_loop env question w =
    (Returns tt,
     mkWorld (log w1 ++ [EvPrint (lit "Error in processing: " ++ exn_message e)])
       (<[Agent.thread_id :=
            mkCheckpoint (asked_state question) (Some "write_query"%string) ∅]>
          (memory w))).
Proof.
  intros Hfresh Hw.
  unfold Agent.human_in_the_loop.
  erewrite bind_returns by apply print_run.
  fold (asked_state question). fold (banner question).
  unfold try_except.
  erewrite bind_raises; cycle 1.
  { change (mkWorld (log w ++ [EvPrint (banner question)]) (memory w))
      with (greeted question w).
    rewrite stream_first by exact Hfresh. rewrite Hw. reflexivity. }
  reflexivity.
Qed.

(** X13.  [human_in_the_loop] never raises.  On a fresh thread, when [write_query]
    raises, all that follows is the line [Error in processing: ] with the
    message: the operator is not asked, and the thread keeps the checkpoint of
    the input. *)
Theorem human_in_the_loop_never_raises (env : Env) (question : str) (w : World) :
  fst (Agent.human_in_the_loop env question w) = Returns tt /\
  (forall e w1,
     memory w !! Agent.thread_id = None ->
     Agent.write_query env (asked_state question) (greeted question w) = (Raises e, w1) ->
     Agent.human_in_the_loop env question w =
       (Returns tt,
        mkWorld (log w1 ++ [EvPrint (lit "Error in processing: " ++ exn_message e)])
          (<[Agent.thread_id :=
               mkCheckpoint (asked_state question) (Some "write_query"%string) ∅]>
             (memory w)))).
Proof.
  split.
  - unfold Agent.human_in_the_loop.
    erewrite bind_returns by apply print_run.
    unfold try_except.
    match goal with
    | |- fst (match ?body ?x with _ => _ end) = _ => destruct (body x) as [[[]|e] w']
    end; reflexivity.
  - intros e w1. apply human_in_the_loop_stage_fails.
Qed.

(** X13 at work: both modes of the model fail. *)
Lemma human_in_the_loop_never_raises_witness :
  memory empty_world !! Agent.thread_id = None /\
  exists l,
    log (snd (Agent.human_in_the_loop env_silent sample_question empty_world)) =
      l ++ [EvPrint (lit "Error in processing: rate limit")] /\
    calls is_input l = 0.
Proof.
  assert (Hfresh : memory empty_world !! Agent.thread_id = None) by reflexivity.
  assert (Hw : Agent.write_query env_silent (asked_state sample_question)
                 (greeted sample_question empty_world)
               = (Raises (PyException (lit "rate limit")),
                  snd (Agent.write_query env_silent (asked_state sample_question)
                         (greeted sample_question empty_world))))
    by (vm_compute; reflexivity).
  split; [exact Hfresh|].
  rewrite (proj2 (human_in_the_loop_never_raises env_silent sample_question empty_world)
             _ _ Hfresh Hw).
  eexists. split; [reflexivity|]. vm_compute. reflexivity.
Defined.

(** X14.  On a fresh thread, [human_in_the_loop] calls the database tool at most
    once, and only right after the operator, shown a query, replied [yes] in
    some case: the query executed is the query shown. *)
Theorem no_execution_without_approval (env : Env) (question : str) (w : World) :
  memory w !! Agent.thread_id = None ->
  let final := snd (Agent.human_in_the_loop env question w) in
  calls is_tool (log final) = calls is_tool (log w) \/
  exists before q rest,
    log final = before ++ shown_query q :: EvInput Agent.approval_prompt
                       :: EvTool q :: rest /\
    str_lower (operator env (before ++ [shown_query q])) = lit "yes" /\
    calls is_tool (log final) = S (calls is_tool (log w)).
Proof.
  intros Hfresh final. subst final.
  destruct (write_query_events env (asked_state question) (greeted question w))
    as (new & Hev & Htool & Htext & _).
  destruct (Agent.write_query env (asked_state question) (greeted question w))
    as [[u|e] w1] eqn:Hw; cbn [snd] in Hev; subst w1.
  - destruct (write_query_update env (asked_state question) (greeted question w) u)
      as [q ->]; [rewrite Hw; reflexivity|].
    destruct (str_eqb (str_lower (operator env
                ((log (greeted question w) ++ new) ++
                 [EvPrintStep "write_query" {["query"%string := q]}; shown_query q])))
                (lit "yes")) eqn:E.
    + right.
      rewrite (human_in_the_loop_approved env question w _ q Hfresh Hw E).
      cbn [snd log].
      exists ((log (greeted question w) ++ new) ++
              [EvPrintStep "write_query" {["query"%string := q]}]), q.
      eexists. split; [rewrite <- !app_assoc; cbn [app]; reflexivity|].
      split.
      * apply str_eqb_eq. rewrite <- app_assoc. exact E.
      * unfold greeted. cbn [log]. rewrite !calls_app, Htool. simpl. lia.
    + left.
      rewrite (human_in_the_loop_rejected env question w _ q Hfresh Hw E).
      cbn [snd log]. unfold greeted. cbn [log].
      rewrite !calls_app, Htool. simpl. lia.
  - left.
    rewrite (human_in_the_loop_stage_fails env question w _ e Hfresh Hw).
    cbn [snd log]. unfold greeted. cbn [log].
    rewrite !calls_app, Htool. simpl. lia.
Qed.

(** X14 at work: the operator says no. *)
Lemma no_execution_without_approval_witness :
  memory empty_world !! Agent.thread_id = None /\
  calls is_tool (log (snd (Agent.human_in_the_loop env_fallback sample_question
                             empty_world))) <= 1.
Proof.
  assert (Hfresh : memory empty_world !! Agent.thread_id = None) by reflexivity.
  split; [exact Hfresh|].
  destruct (no_execution_without_approval env_fallback sample_question empty_world Hfresh)
    as [H | (before & q & rest & _ & _ & H)]; rewrite H.
  - apply Nat.le_0_l.
  - apply Nat.le_refl.
Defined.

(** ** The page, whatever happens *)

(** X15.  [generate_sql] never raises.  It gives [None] exactly when the schema read
    or the model call raises.  When the schema read raises [e], all that
    happens is that read and the error [SQL Generation Error: ] followed by
    the message of [e] on the page; when the model call raises [e], all that
    happens is the schema read, that call and the error
    [SQL Generation Error: ] followed by the message of [e]. *)
Theorem generate_sql_reports (env : Env) (question : str) (w : World) :
  let res := App.generate_sql env question w in
  (exists o, fst res = Returns o) /\
  (fst res = Returns None <->
   (exists e, db_table_info env (log w) = Raises e) \/
   (exists info e,
      db_table_info env (log w) = Returns info /\
      llm_chat env (log w ++ [EvTableInfo]) (mkPrompt (db_dialect env) 10 info question)
        = Raises e)) /\
  (forall e,
     db_table_info env (log w) = Raises e ->
     res = (Returns None,
            mkWorld (log w ++ [EvTableInfo;
                               EvRender StError
                                 (lit "SQL Generation Error: " ++ exn_message e)])
              (memory w))) /\
  (forall info e,
     db_table_info env (log w) = Returns info ->
     llm_chat env (log w ++ [EvTableInfo]) (mkPrompt (db_dialect env) 10 info question)
       = Raises e ->
     res = (Returns None,
            mkWorld (log w ++ [EvTableInfo;
                               EvChat (mkPrompt (db_dialect env) 10 info question);
                               EvRender StError
                                 (lit "SQL Generation Error: " ++ exn_message e)])
              (memory w))).
Proof.
  cbn zeta. run.
  destruct (db_table_info env (log w)) as [info|e] eqn:Ei; cbn [log memory fst snd].
  - destruct (llm_chat env _ _) as [content|e] eqn:Ec; cbn [log memory fst snd].
    + split; [eexists; reflexivity|]. split; [|split; [discriminate|]].
      * split; [discriminate|].
        intros [[e He] | (i & e & Hi & He)]; [discriminate|].
        injection Hi as <-. rewrite Ec in He. discriminate.
      * intros i e [= <-] He. rewrite Ec in He. discriminate.
    + split; [eexists; reflexivity|]. split; [|split; [discriminate|]].
      * split; [|reflexivity]. intros _. right. exists info, e.
        split; [reflexivity | exact Ec].
      * intros i e' [= <-] He. rewrite Ec in He. injection He as <-.
        rewrite <- !app_assoc. reflexivity.
  - split; [eexists; reflexivity|]. split; [|split; [|discriminate]].
    + split; [|reflexivity]. intros _. left. exists e. reflexivity.
    + intros e' [= <-]. rewrite <- !app_assoc. reflexivity.
Qed.

(** X15 at work: the model call raises, and the page shows its message. *)
Lemma generate_sql_reports_witness :
  llm_chat env_silent [EvTableInfo]
      (mkPrompt (lit "sqlite") 10 (lit "CREATE TABLE Employee (EmployeeId INTEGER)")
         sample_question)
    = Raises (PyException (lit "rate limit")) /\
  App.generate_sql env_silent sample_question empty_world =
    (Returns None,
     mkWorld [EvTableInfo;
              EvChat (mkPrompt (lit "sqlite") 10
                        (lit "CREATE TABLE Employee (EmployeeId INTEGER)")
                        sample_question);
              EvRender StError (lit "SQL Generation Error: rate limit")] ∅).
Proof.
  split; [reflexivity|].
  exact (proj2 (proj2 (proj2 (generate_sql_reports env_silent sample_question
                                empty_world)))
           (lit "CREATE TABLE Employee (EmployeeId INTEGER)")
           (PyException (lit "rate limit")) eq_refl eq_refl).
Defined.

(** X16.  The page never raises and never retries: for every question it ends
    normally, with at most one call to the model for the query, one to the
    database tool and one to the model for the answer; on an empty question
    it does nothing. *)
Theorem page_never_raises (env : Env) (question : str) (w : World) :
  exists new,
    App.page env question w = (Returns tt, mkWorld (log w ++ new) (memory w)) /\
    calls is_chat new <= 1 /\ calls is_tool new <= 1 /\ calls is_text new <= 1 /\
    (truthy question = false -> new = []).
Proof.
  unfold App.page. destruct (truthy question) eqn:Hq; cycle 1.
  { exists []. rewrite app_nil_r. destruct w. repeat split; simpl; lia. }
  run.
  repeat match goal with
         | |- context [match ?x with _ => _ end] =>
             lazymatch x with
             | db_table_info _ _ => destruct x eqn:?
             | llm_chat _ _ _ => destruct x eqn:?
             | sql_tool _ _ _ => destruct x eqn:?
             | llm_text _ _ _ => destruct x eqn:?
             | truthy _ => destruct x eqn:?
             end; cbn [log memory fst snd]
         end.
  all: rewrite <- ?app_assoc; cbn [app];
    eexists; (split; [reflexivity|]); repeat split; simpl; try lia; discriminate.
Qed.

(** X17.  When the three stages of the page give text, the page shows what it ran:
    the query in the code box is the query sent to the database tool, the
    result written is the result in the prompt of the answer, and the answer
    comes last, in bold. *)
Theorem page_shows_what_it_runs
    (env : Env) (question info content result text : str) (w : World) :
  truthy question = true ->
  db_table_info env (log w) = Returns info ->
  let prompt := mkPrompt (db_dialect env) 10 info question in
  llm_chat env (log w ++ [EvTableInfo]) prompt = Returns content ->
  let sql := clean_query content in
  truthy sql = true ->
  let h1 := log w ++ [EvTableInfo; EvChat prompt;
                      EvRender StSubheader (lit "Generated SQL Query");
                      EvRender StCode sql] in
  sql_tool env h1 sql = Returns result ->
  truthy result = true ->
  let h2 := h1 ++ [EvTool sql;
                   EvRender StSubheader (lit "Query Results");
                   EvRender StWrite result] in
  llm_text env h2 (App.answer_prompt question sql result) = Returns text ->
  let answer := strip (re_sub_empty App.think_tag text) in
  truthy answer = true ->
  App.page env question w =
    (Returns tt,
     mkWorld (h2 ++ [EvText (App.answer_prompt question sql result);
                     EvRender StSubheader (lit "Natural Language Answer");
                     EvRender StMarkdown (lit "**" ++ answer ++ lit "**")])
       (memory w)).
Proof.
  intros Hq Hi prompt Hc sql Hs h1 Ht Hr h2 Hx answer Ha.
  subst h2 h1. rewrite <- ?app_assoc in Hx. cbn [app] in Hx.
  unfold App.page. rewrite Hq. run.
  rewrite Hi. cbn [log memory]. fold prompt. rewrite Hc. cbn [log memory].
  fold sql. rewrite Hs. cbn [log memory].
  rewrite <- !app_assoc. cbn [app]. rewrite Ht. cbn [log memory].
  rewrite Hr. cbn [log memory].
  rewrite <- !app_assoc. cbn [app].
  rewrite Hx. cbn [log memory]. fold answer. rewrite Ha. cbn [log memory].
  rewrite <- !app_assoc. reflexivity.
Qed.

(** X17 at work: a page with every collaborator answering. *)
Lemma page_shows_what_it_runs_witness :
  truthy sample_question = true /\
  truthy (clean_query sample_sql) = true /\
  calls is_markdown (log (snd (App.page env_thinking sample_question empty_world))) = 1 /\
  In (EvRender StMarkdown (lit "**8 rows Eight.**"))
     (log (snd (App.page env_thinking sample_question empty_world))).
Proof.
  assert (Hq : truthy sample_question = true) by reflexivity.
  assert (Hs : truthy (clean_query sample_sql) = true) by reflexivity.
  split; [exact Hq|]. split; [exact Hs|].
  rewrite (page_shows_what_it_runs env_thinking sample_question
             (lit "CREATE TABLE Employee (EmployeeId INTEGER)") sample_sql
             (lit "[(8,)]") (lit "<think>8 rows</think> Eight. ") empty_world
             Hq eq_refl eq_refl Hs eq_refl eq_refl eq_refl eq_refl).
  split; [reflexivity|]. vm_compute. tauto.
Defined.

(** X18.  The third gate of the page: when the model raises, the answer is [None],
    and when its text is empty once markers and outer whitespace are gone,
    the answer is the empty text; in both cases the page ends without the
    answer section. *)
Theorem page_hides_empty_answer
    (env : Env) (question info content result : str) (w : World) :
  truthy question = true ->
  db_table_info env (log w) = Returns info ->
  let prompt := mkPrompt (db_dialect env) 10 info question in
  llm_chat env (log w ++ [EvTableInfo]) prompt = Returns content ->
  let sql := clean_query content in
  truthy sql = true ->
  let h1 := log w ++ [EvTableInfo; EvChat prompt;
                      EvRender StSubheader (lit "Generated SQL Query");
                      EvRender StCode sql] in
  sql_tool env h1 sql = Returns result ->
  truthy result = true ->
  let h2 := h1 ++ [EvTool sql;
                   EvRender StSubheader (lit "Query Results");
                   EvRender StWrite result] in
  let answered := App.generate_answer env question sql result (mkWorld h2 (memory w)) in
  (forall e,
     llm_text env h2 (App.answer_prompt question sql result) = Raises e ->
     fst answered = Returns None) /\
  (forall text,
     llm_text env h2 (App.answer_prompt question sql result) = Returns text ->
     strip (re_sub_empty App.think_tag text) = [] ->
     fst answered = Returns (Some [])) /\
  (forall a,
     fst answered = Returns a -> truthy_opt a = false ->
     App.page env question w = (Returns tt, snd answered) /\
     calls is_markdown (log (snd answered)) = calls is_markdown (log w)).
Proof.
  intros Hq Hi prompt Hc sql Hs h1 Ht Hr h2 answered.
  split; [|split].
  - intros e He. unfold answered. rewrite web_answer_run. cbn [log]. rewrite He. reflexivity.
  - intros text He Hempty. unfold answered. rewrite web_answer_run. cbn [log].
    rewrite He. cbn [fst]. rewrite Hempty. reflexivity.
  - intros a Ha Hempty. unfold answered in *. rewrite web_answer_run in *.
    cbn [log memory] in *.
    assert (Hstart :
      App.page env question w =
        bind (App.generate_answer env question sql result)
          (fun answer => App.if_truthy answer (fun answer =>
             App.render StSubheader (lit "Natural Language Answer") ;;
             App.render StMarkdown (lit "**" ++ answer ++ lit "**")))
          (mkWorld h2 (memory w))).
    { subst h2 h1.
      unfold App.page. rewrite Hq.
      erewrite bind_returns; cycle 1.
      { unfold App.generate_sql, try_except.
        erewrite bind_returns by (unfold get_table_info, call; rewrite Hi; reflexivity).
        cbn beta zeta. fold prompt.
        erewrite bind_returns
          by (unfold invoke_chat, call; cbn [log]; rewrite Hc; reflexivity).
        reflexivity. }
      fold sql. unfold App.if_truthy at 1. rewrite Hs.
      erewrite bind_returns by reflexivity.
      erewrite bind_returns by reflexivity.
      cbn [log memory]. rewrite <- !app_assoc. cbn [app].
      erewrite bind_returns; cycle 1.
      { rewrite execute_sql_run. cbn [log memory]. rewrite Ht. reflexivity. }
      unfold App.if_truthy at 1. rewrite Hr.
      erewrite bind_returns by reflexivity.
      erewrite bind_returns by reflexivity.
      cbn [log memory]. rewrite <- !app_assoc. cbn [app]. reflexivity. }
    rewrite Hstart. unfold bind at 1.
    rewrite web_answer_run. cbn [log memory].
    destruct (llm_text env h2 _) eqn:El; cbn [fst snd] in *;
      injection Ha as <-.
    + simpl in Hempty. unfold App.if_truthy. rewrite Hempty.
      split; [reflexivity|].
      cbn [log]. unfold h2, h1. rewrite !calls_app. simpl. lia.
    + split; [reflexivity|].
      cbn [log]. unfold h2, h1. rewrite !calls_app. simpl. lia.
Qed.

(** X18 at work: the model answers with an empty trace. *)
Lemma page_hides_empty_answer_witness :
  truthy sample_question = true /\
  strip (re_sub_empty App.think_tag (lit "<think></think>  ")) = [] /\
  fst (App.page env_blank sample_question empty_world) = Returns tt /\
  calls is_markdown (log (snd (App.page env_blank sample_question empty_world))) = 0.
Proof.
  assert (Hq : truthy sample_question = true) by reflexivity.
  assert (He : strip (re_sub_empty App.think_tag (lit "<think></think>  ")) = [])
    by reflexivity.
  split; [exact Hq|]. split; [exact He|].
  destruct (page_hides_empty_answer env_blank sample_question
              (lit "CREATE TABLE Employee (EmployeeId INTEGER)") sample_sql
              (lit "[(8,)]") empty_world Hq eq_refl eq_refl eq_refl eq_refl eq_refl)
    as (_ & Hblank & Hgate).
  destruct (Hgate (Some []) (Hblank _ eq_refl He) eq_refl) as [Hpage Hcount].
  rewrite Hpage. split; [reflexivity|]. cbn [snd]. rewrite Hcount. reflexivity.
Defined.
